(** * pr-reviewer: a shallow embedding of [src/prreviewer.py]

    The script is a sequential command-line program: it validates two
    numeric limits, fetches the metadata of a pull request, prints it,
    then fetches the list of changed files and the content of each one.

    Python values are modelled as follows.
    - [str] is a list of Unicode code points (Python strings may hold lone
      surrogates, which matters for [s.encode('utf-8')]);
    - [bytes] is a list of octets, each a [Z] in [0, 256);
    - decoded JSON documents are the inductive type [json];
    - [print], [requests.get], [raise], [exit] and the module-level
      [DEBUG] flag are effects of a state-and-error monad [M].

    [count_tokens] wraps an external tokenizer and is called nowhere in
    the script; it is left out. *)

From Stdlib Require Import ZArith List Bool String Ascii Lia DecimalString.
Import ListNotations.
Open Scope Z_scope.

(** ** Strings and bytes *)

Definition str := list Z.
Definition bytes := list Z.

Definition is_code_point (c : Z) : bool := (0 <=? c) && (c <=? 0x10FFFF).
Definition is_surrogate (c : Z) : bool := (0xD800 <=? c) && (c <=? 0xDFFF).
Definition is_byte (b : Z) : bool := (0 <=? b) && (b <? 256).

(** The type invariant of a Python [str]. *)
Definition wf_str (s : str) : bool := forallb is_code_point s.
Definition wf_bytes (b : bytes) : bool := forallb is_byte b.
(** Strings made of Unicode scalar values only. *)
Definition no_surrogates (s : str) : bool :=
  forallb (fun c => negb (is_surrogate c)) s.

(** Text that can be shown: a string without surrogate code points.
    Standard output, in UTF-8 with the strict error handler as Python
    sets it up, encodes exactly these strings. *)
Record text := mkText {
  chars :> list Z;
  text_ok : no_surrogates chars = true
}.

(** String literals of the source, as code points. *)
Definition lit (s : string) : str :=
  map (fun a => Z.of_N (N_of_ascii a)) (list_ascii_of_string s).

Definition NL : str := [10].
Definition TAB : str := [9].

(** [str(n)] and [f'{n}'] for a Python [int]. *)
Definition str_of_int (n : Z) : str := lit (NilZero.string_of_int (Z.to_int n)).

(** [str(b)] and [f'{b}'] for a Python [bool]. *)
Definition str_of_bool (b : bool) : str :=
  if b then lit "True" else lit "False".



(** ** Exceptions and results *)

Inductive exn :=
| Exception (msg : str)
| KeyError (key : str)
| TypeError
| ValueError
| JSONDecodeError
| UnicodeEncodeError
| UnicodeDecodeError
| BinasciiError
| RequestException.

(** The three ways a Python call can end: a value, a propagating exception,
    or [SystemExit] raised by [exit(code)]. *)
Inductive result (A : Type) :=
| Return (a : A)
| Raise (e : exn)
| Exit (code : Z).
Arguments Return {A} a.
Arguments Raise {A} e.
Arguments Exit {A} code.

Definition rbind {A B} (r : result A) (k : A -> result B) : result B :=
  match r with
  | Return a => k a
  | Raise e => Raise e
  | Exit c => Exit c
  end.

Definition of_option {A} (e : exn) (o : option A) : result A :=
  match o with
  | Some a => Return a
  | None => Raise e
  end.

(** ** The codecs of the Python standard library

    [str.encode('utf-8')], [bytes.decode('utf-8')], [str.encode('ascii')],
    [base64.b64encode] and [base64.b64decode] belong to CPython, not to the
    script.  They are modelled after CPython's implementation in their
    default (strict) error mode. *)

Module Codec.

(** One code point to UTF-8; [None] when the code point is a surrogate. *)
Definition utf8_encode_cp (ch : Z) : option bytes :=
  if ch <? 0x80 then Some [ch]
  else if ch <? 0x800 then
    Some [Z.lor 0xC0 (Z.shiftr ch 6); Z.lor 0x80 (Z.land ch 0x3F)]
  else if is_surrogate ch then None
  else if ch <? 0x10000 then
    Some [Z.lor 0xE0 (Z.shiftr ch 12);
          Z.lor 0x80 (Z.land (Z.shiftr ch 6) 0x3F);
          Z.lor 0x80 (Z.land ch 0x3F)]
  else
    Some [Z.lor 0xF0 (Z.shiftr ch 18);
          Z.lor 0x80 (Z.land (Z.shiftr ch 12) 0x3F);
          Z.lor 0x80 (Z.land (Z.shiftr ch 6) 0x3F);
          Z.lor 0x80 (Z.land ch 0x3F)].

Fixpoint utf8_encode (s : str) : option bytes :=
  match s with
  | [] => Some []
  | ch :: s' =>
      match utf8_encode_cp ch, utf8_encode s' with
      | Some b, Some bs => Some (b ++ bs)
      | _, _ => None
      end
  end.

Definition is_continuation (b : Z) : bool := (0x80 <=? b) && (b <? 0xC0).

(** Strict UTF-8 decoding: overlong forms, surrogates, values above
    U+10FFFF, stray continuation bytes and truncated sequences are errors. *)
Fixpoint utf8_decode (b : bytes) : option str :=
  match b with
  | [] => Some []
  | ch :: rest =>
      if ch <? 0x80 then option_map (cons ch) (utf8_decode rest)
      else if ch <? 0xC2 then None
      else if ch <? 0xE0 then
        match rest with
        | ch2 :: rest' =>
            if is_continuation ch2 then
              option_map
                (cons (Z.shiftl ch 6 + ch2 - (Z.shiftl 0xC0 6 + 0x80)))
                (utf8_decode rest')
            else None
        | _ => None
        end
      else if ch <? 0xF0 then
        match rest with
        | ch2 :: ch3 :: rest' =>
            if negb (is_continuation ch2) then None
            else if (ch =? 0xE0) && (ch2 <? 0xA0) then None
            else if (ch =? 0xED) && (0xA0 <=? ch2) then None
            else if negb (is_continuation ch3) then None
            else
              option_map
                (cons (Z.shiftl ch 12 + Z.shiftl ch2 6 + ch3
                       - (Z.shiftl 0xE0 12 + Z.shiftl 0x80 6 + 0x80)))
                (utf8_decode rest')
        | _ => None
        end
      else if ch <? 0xF5 then
        match rest with
        | ch2 :: ch3 :: ch4 :: rest' =>
            if negb (is_continuation ch2) then None
            else if (ch =? 0xF0) && (ch2 <? 0x90) then None
            else if (ch =? 0xF4) && (0x90 <=? ch2) then None
            else if negb (is_continuation ch3) then None
            else if negb (is_continuation ch4) then None
            else
              option_map
                (cons (Z.shiftl ch 18 + Z.shiftl ch2 12 + Z.shiftl ch3 6 + ch4
                       - (Z.shiftl 0xF0 18 + Z.shiftl 0x80 12
                          + Z.shiftl 0x80 6 + 0x80)))
                (utf8_decode rest')
        | _ => None
        end
      else None
  end.

(** [s.encode('ascii')]: every code point must be below 128. *)
Definition ascii_encode (s : str) : option bytes :=
  if forallb (fun c => c <? 0x80) s then Some s else None.

(** The Base64 alphabet: [A-Z], [a-z], [0-9], [+], [/]. *)
Definition table_b2a_base64 (v : Z) : Z :=
  if v <? 26 then 65 + v
  else if v <? 52 then 97 + (v - 26)
  else if v <? 62 then 48 + (v - 52)
  else if v =? 62 then 43
  else 47.

(** The inverse table; [None] stands for the entries that mark a
    character outside the alphabet. *)
Definition table_a2b_base64 (c : Z) : option Z :=
  if (65 <=? c) && (c <=? 90) then Some (c - 65)
  else if (97 <=? c) && (c <=? 122) then Some (c - 97 + 26)
  else if (48 <=? c) && (c <=? 57) then Some (c - 48 + 52)
  else if c =? 43 then Some 62
  else if c =? 47 then Some 63
  else None.

Definition BASE64_PAD : Z := 61.

(** [base64.b64encode]: three octets become four characters; a final group
    of one or two octets is padded with [=]. *)
Fixpoint b64encode (b : bytes) : bytes :=
  match b with
  | [] => []
  | [x] =>
      [table_b2a_base64 (Z.shiftr x 2);
       table_b2a_base64 (Z.shiftl (Z.land x 3) 4);
       BASE64_PAD; BASE64_PAD]
  | [x; y] =>
      [table_b2a_base64 (Z.shiftr x 2);
       table_b2a_base64 (Z.lor (Z.shiftl (Z.land x 3) 4) (Z.shiftr y 4));
       table_b2a_base64 (Z.shiftl (Z.land y 0xF) 2);
       BASE64_PAD]
  | x :: y :: z :: rest =>
      table_b2a_base64 (Z.shiftr x 2)
      :: table_b2a_base64 (Z.lor (Z.shiftl (Z.land x 3) 4) (Z.shiftr y 4))
      :: table_b2a_base64 (Z.lor (Z.shiftl (Z.land y 0xF) 2) (Z.shiftr z 6))
      :: table_b2a_base64 (Z.land z 0x3F)
      :: b64encode rest
  end.

(** [binascii.a2b_base64] in its default, non-strict mode: characters
    outside the alphabet are skipped, a complete run of padding ends the
    decoding, and a quad left open at the end of the input is an error.
    [quad_pos] counts the characters of the current quad, [leftchar] holds
    the bits not yet written, [pads] the padding characters seen in a row. *)
Fixpoint a2b_base64 (input : bytes) (quad_pos leftchar pads : Z)
  : option bytes :=
  match input with
  | [] => if quad_pos =? 0 then Some [] else None
  | this_ch :: rest =>
      if this_ch =? BASE64_PAD then
        if 2 <=? quad_pos then
          if 4 <=? quad_pos + (pads + 1) then Some []
          else a2b_base64 rest quad_pos leftchar (pads + 1)
        else a2b_base64 rest quad_pos leftchar pads
      else
        match table_a2b_base64 this_ch with
        | None => a2b_base64 rest quad_pos leftchar pads
        | Some v =>
            if quad_pos =? 0 then a2b_base64 rest 1 v 0
            else if quad_pos =? 1 then
              option_map
                (cons (Z.land (Z.lor (Z.shiftl leftchar 2) (Z.shiftr v 4)) 0xFF))
                (a2b_base64 rest 2 (Z.land v 0x0F) 0)
            else if quad_pos =? 2 then
              option_map
                (cons (Z.land (Z.lor (Z.shiftl leftchar 4) (Z.shiftr v 2)) 0xFF))
                (a2b_base64 rest 3 (Z.land v 0x03) 0)
            else
              option_map
                (cons (Z.land (Z.lor (Z.shiftl leftchar 6) v) 0xFF))
                (a2b_base64 rest 0 0 0)
        end
  end.

Definition b64decode (b : bytes) : option bytes := a2b_base64 b 0 0 0.

End Codec.

(** ** Decoded JSON documents

    What [response.json()] returns.  A [JFloat] carries the binary64 bit
    pattern of a Python [float]; the script never computes with numbers.
    A [JDict] lists its items in insertion order, keys pairwise distinct. *)

#[warnings="-register-all"]
Inductive json :=
| JNull
| JBool (b : bool)
| JInt (n : Z)
| JFloat (bits : Z)
| JStr (s : str)
| JList (items : list json)
| JDict (items : list (str * json)).

Fixpoint str_eqb (a b : str) : bool :=
  match a, b with
  | [], [] => true
  | x :: a', y :: b' => (x =? y) && str_eqb a' b'
  | _, _ => false
  end.

Fixpoint dict_get (items : list (str * json)) (key : str) : option json :=
  match items with
  | [] => None
  | (k, v) :: items' => if str_eqb k key then Some v else dict_get items' key
  end.

(** [obj[key]] with a string key. *)
Definition getitem (obj : json) (key : str) : result json :=
  match obj with
  | JDict items => of_option (KeyError key) (dict_get items key)
  | _ => Raise TypeError
  end.

(** The elements a [for] loop visits: the items of a list, the keys of a
    dict, the characters of a string; other values are not iterable. *)
Definition py_iter (obj : json) : result (list json) :=
  match obj with
  | JList items => Return items
  | JDict items => Return (map (fun kv => JStr (fst kv)) items)
  | JStr s => Return (map (fun c => JStr [c]) s)
  | _ => Raise TypeError
  end.

(** ** The world the script runs in *)

Record Request := mkRequest {
  req_url : json;
  req_headers : list (str * str)
}.

Record Response := mkResponse {
  status_code : Z;
  (** [None] when the body is not a JSON document. *)
  resp_json : option json
}.

(** The three places of the script that call [requests.get]. *)
Inductive Site := InGetPrData | InGetPrFileList | InGetFileContent.

(** One call of [requests.get]: where it was made, what was asked and what
    came back; [None] is a request that produced no response (invalid
    URL, connection failure). *)
Record Exchange := mkExchange {
  ex_site : Site;
  ex_request : Request;
  ex_answer : option Response
}.

Record Env := mkEnv {
  (** The remote side: its answer may depend on the exchanges so far. *)
  net : list Exchange -> Request -> option Response;
  (** [repr] of floats, lists and dicts, left to the Python runtime. *)
  py_repr : json -> str
}.

Record State := mkState {
  DEBUG : bool;
  stdout : list str;
  http_log : list Exchange
}.

(** The module as loaded: [DEBUG = False], nothing printed or requested. *)
Definition initial_state : State := mkState false [] [].

(** ** The monad of the script *)

Definition M (A : Type) : Type := Env -> State -> result A * State.

Definition ret {A} (a : A) : M A := fun _ st => (Return a, st).

Definition bind {A B} (m : M A) (k : A -> M B) : M B :=
  fun env st =>
    match m env st with
    | (Return a, st') => k a env st'
    | (Raise e, st') => (Raise e, st')
    | (Exit c, st') => (Exit c, st')
    end.

Notation "x <- m ;; k" := (bind m (fun x => k))
  (at level 61, m at next level, right associativity).
Notation "m ;; k" := (bind m (fun _ => k))
  (at level 61, right associativity).

Definition lift {A} (r : result A) : M A := fun _ st => (r, st).
Definition raise {A} (e : exn) : M A := lift (Raise e).
Definition exit {A} (code : Z) : M A := lift (Exit code).

(** [print(s)]: one entry of [stdout] per call.  Standard output is
    UTF-8 with the strict error handler and cannot encode a lone
    surrogate: [print] then raises [UnicodeEncodeError] and shows nothing
    of the string. *)
Definition print (s : str) : M unit :=
  fun _ st =>
    if no_surrogates s then
      (Return tt, mkState (DEBUG st) (stdout st ++ [s]) (http_log st))
    else (Raise UnicodeEncodeError, st).

Definition get_DEBUG : M bool := fun _ st => (Return (DEBUG st), st).
Definition set_DEBUG (b : bool) : M unit :=
  fun _ st => (Return tt, mkState b (stdout st) (http_log st)).

(** [requests.get(url, headers=headers)], called from [site]. *)
Definition requests_get (site : Site) (url : json) (headers : list (str * str))
  : M Response :=
  fun env st =>
    let rq := mkRequest url headers in
    let ans := net env (http_log st) rq in
    let st' := mkState (DEBUG st) (stdout st)
                 (http_log st ++ [mkExchange site rq ans]) in
    match ans with
    | Some r => (Return r, st')
    | None => (Raise RequestException, st')
    end.

(** [response.json()]. *)
Definition response_json (r : Response) : result json :=
  of_option JSONDecodeError (resp_json r).

(** [f'{v}'] for a value taken from a JSON document. *)
Definition py_str (repr : json -> str) (v : json) : str :=
  match v with
  | JStr s => s
  | JNull => lit "None"
  | JBool b => str_of_bool b
  | JInt n => str_of_int n
  | _ => repr v
  end.

Definition format (v : json) : M str :=
  fun env st => (Return (py_str (py_repr env) v), st).

(** ** The script *)

(** The argument of [base64_to_string]: the bytes made by
    [string_to_base64], or a value out of a JSON document. *)
Inductive b64arg :=
| OfBytes (b : bytes)
| OfJson (v : json).

Definition string_to_base64 (s : str) : result bytes :=
  rbind (of_option UnicodeEncodeError (Codec.utf8_encode s))
        (fun b => Return (Codec.b64encode b)).

Definition base64_to_string (b : b64arg) : result str :=
  rbind
    match b with
    | OfBytes raw => Return raw
    | OfJson (JStr s) => of_option ValueError (Codec.ascii_encode s)
    | OfJson _ => Raise TypeError
    end
    (fun raw =>
       rbind (of_option BinasciiError (Codec.b64decode raw))
             (fun decoded =>
                of_option UnicodeDecodeError (Codec.utf8_decode decoded))).

Definition auth_headers (gh_token : str) : list (str * str) :=
  [(lit "Authorization", lit "token " ++ gh_token);
   (lit "Accept", lit "application/vnd.github+json")].

Definition get_file_content (url : json) (gh_token : str) : M str :=
  let headers := auth_headers gh_token in
  response <- requests_get InGetFileContent url headers ;;
  if negb (status_code response =? 200) then
    raise (Exception (lit "Error fetching file contents: "
                      ++ str_of_int (status_code response)))
  else
    body <- lift (response_json response) ;;
    content <- lift (getitem body (lit "content")) ;;
    lift (base64_to_string (OfJson content)).

Definition files_url (pr_number repo_ownr repo_name : str) : str :=
  lit "https://api.github.com/repos/" ++ repo_ownr ++ lit "/" ++ repo_name
  ++ lit "/pulls/" ++ pr_number ++ lit "/files".

Definition FileEntry : Type := json * json * str.

(** The loop of [get_pr_file_list]; [file_list] is the list built so far. *)
Fixpoint collect_files (files : list json) (gh_token : str)
    (file_list : list FileEntry) : M (list FileEntry) :=
  match files with
  | [] => ret file_list
  | file :: files' =>
      filename <- lift (getitem file (lit "filename")) ;;
      patch <- lift (getitem file (lit "patch")) ;;
      contents_url <- lift (getitem file (lit "contents_url")) ;;
      content <- get_file_content contents_url gh_token ;;
      collect_files files' gh_token (file_list ++ [(filename, patch, content)])
  end.

Definition get_pr_file_list (pr_number repo_ownr repo_name gh_token : str)
  : M (list FileEntry) :=
  let file_list := [] in
  let url := files_url pr_number repo_ownr repo_name in
  let headers := auth_headers gh_token in
  response <- requests_get InGetPrFileList (JStr url) headers ;;
  if negb (status_code response =? 200) then
    raise (Exception (lit "Error fetching pull request: "
                      ++ str_of_int (status_code response)))
  else
    body <- lift (response_json response) ;;
    files <- lift (py_iter body) ;;
    collect_files files gh_token file_list.

Definition pr_url (pr_number repo_ownr repo_name : str) : str :=
  lit "https://api.github.com/repos/" ++ repo_ownr ++ lit "/" ++ repo_name
  ++ lit "/pulls/" ++ pr_number.

Definition get_pr_data (pr_number repo_ownr repo_name gh_token : str)
  : M Response :=
  let url := pr_url pr_number repo_ownr repo_name in
  let headers := auth_headers gh_token in
  response <- requests_get InGetPrData (JStr url) headers ;;
  if negb (status_code response =? 200) then
    raise (Exception (lit "Error fetching pull request: "
                      ++ str_of_int (status_code response)))
  else ret response.

(** [for x in items: body], for a loop that is run for its effects. *)
Fixpoint for_each {A} (items : list A) (body : A -> M unit) : M unit :=
  match items with
  | [] => ret tt
  | x :: items' => body x ;; for_each items' body
  end.

Definition printout (fstring : str) (mode : bool) : M unit :=
  debug <- get_DEBUG ;;
  let output := mode || debug in
  if output then print fstring else ret tt.

(** [for _ in range(n): signature += '='] *)
Fixpoint underline (n : nat) (signature : str) : str :=
  match n with
  | O => signature
  | S n' => underline n' (signature ++ lit "=")
  end.

Definition print_script_signature (pr_number repo_ownr repo_name : str)
    (verbose : bool) : M unit :=
  let signature :=
    NL ++ lit "Running reviews on PR #" ++ pr_number ++ lit " in "
    ++ repo_ownr ++ lit "/" ++ repo_name ++ lit "..." ++ NL in
  let len_signature := Z.of_nat (List.length signature) - 2 in
  let signature := underline (Z.to_nat len_signature) signature in
  let signature := signature ++ NL in
  printout signature verbose.

(** The command line as [typer] hands it to [main].  The owner, the
    repository and the token are taken to be text: arguments that decode
    in the encoding of the locale, without the lone surrogates that
    Python puts in place of bytes it cannot decode. *)
Record Config := mkConfig {
  pr_number : Z;
  repo_ownr : text;
  repo_name : text;
  gh_token : text;
  review_title : bool;
  review_body : bool;
  review_diffs : bool;
  debug : bool;
  verbose : bool;
  max_files : Z;
  max_tokens : Z;
  max_input_tokens : Z;
  max_input_tokens_pf : Z
}.

(** The defaults of the options, for given positional arguments. *)
Definition default_config (n : Z) (ownr name token : text) : Config :=
  mkConfig n ownr name token true true true false false 30 4096 4096 4096.

Definition main (c : Config) : M unit :=
  set_DEBUG (debug c) ;;
  print_script_signature (str_of_int (pr_number c)) (repo_ownr c)
    (repo_name c) (verbose c) ;;
  (if debug c then
     print (lit "PROGRAM CALL") ;;
     print (TAB ++ lit "pr_number: " ++ str_of_int (pr_number c)) ;;
     print (TAB ++ lit "repo_ownr: " ++ repo_ownr c) ;;
     print (TAB ++ lit "repo_name: " ++ repo_name c) ;;
     print (TAB ++ lit "gh_token:  " ++ gh_token c) ;;
     print (TAB ++ lit "review_title: " ++ str_of_bool (review_title c)) ;;
     print (TAB ++ lit "review_body: " ++ str_of_bool (review_body c)) ;;
     print (TAB ++ lit "review_diffs: " ++ str_of_bool (review_diffs c)) ;;
     print (TAB ++ lit "verbose: " ++ str_of_bool (verbose c)) ;;
     print (TAB ++ lit "debug: " ++ str_of_bool (debug c)) ;;
     print NL
   else ret tt) ;;
  (if max_input_tokens c >? max_tokens c then
     print (lit "!!!ERROR: `max_input_tokens > max_tokens`" ++ NL) ;;
     exit 1
   else ret tt) ;;
  (if max_input_tokens c =? max_tokens c then
     print (lit "!!!WARN: `max_input_tokens = max_tokens` (not recommended)"
            ++ NL)
   else ret tt) ;;
  (if review_title c || review_body c then
     response <- get_pr_data (str_of_int (pr_number c)) (repo_ownr c)
                   (repo_name c) (gh_token c) ;;
     pr_data <- lift (response_json response) ;;
     pr_title <- lift (getitem pr_data (lit "title")) ;;
     pr_body <- lift (getitem pr_data (lit "body")) ;;
     (if review_title c then
        printout (lit "Reviewing the title:") (verbose c) ;;
        title_text <- format pr_title ;;
        printout (TAB ++ title_text) (verbose c)
      else ret tt) ;;
     (if review_body c then
        printout (lit "Reviewing the body:") (verbose c) ;;
        body_text <- format pr_body ;;
        printout (TAB ++ body_text) (verbose c)
      else ret tt)
   else ret tt) ;;
  (if review_diffs c then
     printout (lit "Reviewing the files:") (verbose c) ;;
     changed_files <- get_pr_file_list (str_of_int (pr_number c)) (repo_ownr c)
                        (repo_name c) (gh_token c) ;;
     for_each changed_files (fun file => ret tt)
   else ret tt).


Definition run_main (env : Env) (c : Config) : result unit * State :=
  main c env initial_state.

(** ** The stages of [main]

    The consecutive blocks of [main], named so that they can be reasoned
    about one at a time; [main_stages] below shows that [main] is their
    sequence. *)

Definition banner (c : Config) : str :=
  let signature :=
    NL ++ lit "Running reviews on PR #" ++ str_of_int (pr_number c)
    ++ lit " in " ++ repo_ownr c ++ lit "/" ++ repo_name c ++ lit "..."
    ++ NL in
  underline (Z.to_nat (Z.of_nat (List.length signature) - 2)) signature ++ NL.

Definition dump_lines (c : Config) : list str :=
  [lit "PROGRAM CALL";
   TAB ++ lit "pr_number: " ++ str_of_int (pr_number c);
   TAB ++ lit "repo_ownr: " ++ repo_ownr c;
   TAB ++ lit "repo_name: " ++ repo_name c;
   TAB ++ lit "gh_token:  " ++ gh_token c;
   TAB ++ lit "review_title: " ++ str_of_bool (review_title c);
   TAB ++ lit "review_body: " ++ str_of_bool (review_body c);
   TAB ++ lit "review_diffs: " ++ str_of_bool (review_diffs c);
   TAB ++ lit "verbose: " ++ str_of_bool (verbose c);
   TAB ++ lit "debug: " ++ str_of_bool (debug c);
   NL].

(** What [printout(s, mode)] adds to [stdout] when [DEBUG] holds [d]. *)
Definition shown (mode d : bool) (s : str) : list str :=
  if mode || d then [s] else [].

(** Everything printed before the limits are checked. *)
Definition prelude (c : Config) : list str :=
  shown (verbose c) (debug c) (banner c)
  ++ (if debug c then dump_lines c else []).

Definition error_line : str :=
  lit "!!!ERROR: `max_input_tokens > max_tokens`" ++ NL.

Definition warn_line : str :=
  lit "!!!WARN: `max_input_tokens = max_tokens` (not recommended)" ++ NL.

Definition review_metadata (c : Config) : M unit :=
  if review_title c || review_body c then
    response <- get_pr_data (str_of_int (pr_number c)) (repo_ownr c)
                  (repo_name c) (gh_token c) ;;
    pr_data <- lift (response_json response) ;;
    pr_title <- lift (getitem pr_data (lit "title")) ;;
    pr_body <- lift (getitem pr_data (lit "body")) ;;
    (if review_title c then
       printout (lit "Reviewing the title:") (verbose c) ;;
       title_text <- format pr_title ;;
       printout (TAB ++ title_text) (verbose c)
     else ret tt) ;;
    (if review_body c then
       printout (lit "Reviewing the body:") (verbose c) ;;
       body_text <- format pr_body ;;
       printout (TAB ++ body_text) (verbose c)
     else ret tt)
  else ret tt.

Definition review_files (c : Config) : M unit :=
  if review_diffs c then
    printout (lit "Reviewing the files:") (verbose c) ;;
    changed_files <- get_pr_file_list (str_of_int (pr_number c)) (repo_ownr c)
                       (repo_name c) (gh_token c) ;;
    for_each changed_files (fun file => ret tt)
  else ret tt.

(** The two network stages, entered once the limits have been checked. *)
Definition fetch_stages (c : Config) : M unit :=
  review_metadata c ;; review_files c.

(** The requests of the script. *)
Definition pr_request (c : Config) : Request :=
  mkRequest
    (JStr (pr_url (str_of_int (pr_number c)) (repo_ownr c) (repo_name c)))
    (auth_headers (gh_token c)).

(** The title and the body found in the response to the metadata request. *)
Definition title_and_body (r : Response) : result (json * json) :=
  rbind (response_json r) (fun pr_data =>
  rbind (getitem pr_data (lit "title")) (fun pr_title =>
  rbind (getitem pr_data (lit "body")) (fun pr_body =>
  Return (pr_title, pr_body)))).

(** The lines the metadata stage prints, given the answer to its request,
    the value [mode] of [verbose] and the value [d] of [DEBUG]. *)
Definition metadata_lines (repr : json -> str) (c : Config) (mode d : bool)
    (answer : option Response) : list str :=
  if review_title c || review_body c then
    match answer with
    | Some r =>
        if status_code r =? 200 then
          match title_and_body r with
          | Return (pr_title, pr_body) =>
              (if review_title c then
                 shown mode d (lit "Reviewing the title:")
                 ++ shown mode d (TAB ++ py_str repr pr_title)
               else [])
              ++ (if review_body c then
                    shown mode d (lit "Reviewing the body:")
                    ++ shown mode d (TAB ++ py_str repr pr_body)
                  else [])
          | _ => []
          end
        else []
    | None => []
    end
  else [].

(** How the metadata stage ends, given the answer to its request. *)
Definition metadata_outcome (c : Config) (answer : option Response)
  : result unit :=
  if review_title c || review_body c then
    match answer with
    | Some r =>
        if status_code r =? 200 then
          rbind (title_and_body r) (fun _ => Return tt)
        else
          Raise (Exception (lit "Error fetching pull request: "
                            ++ str_of_int (status_code r)))
    | None => Raise RequestException
    end
  else Return tt.

(** What is shown of lines printed one after the other: the lines up to
    the first one that standard output cannot encode. *)
Fixpoint printed (lines : list str) : list str :=
  match lines with
  | [] => []
  | s :: lines' => if no_surrogates s then s :: printed lines' else []
  end.

(** How the metadata stage ends when it has to print [metadata_lines]:
    as [metadata_outcome] says if every line can be shown, with
    [UnicodeEncodeError] at the first line that cannot. *)
Definition metadata_result (repr : json -> str) (c : Config) (mode d : bool)
    (answer : option Response) : result unit :=
  if forallb no_surrogates (metadata_lines repr c mode d answer)
  then metadata_outcome c answer
  else Raise UnicodeEncodeError.

(** The line the diff stage prints. *)
Definition files_lines (c : Config) (mode d : bool) : list str :=
  if review_diffs c then shown mode d (lit "Reviewing the files:") else [].

(** What the two network stages show: the metadata lines up to the first
    one that cannot be shown, then the line of the diff stage if the
    metadata stage returns. *)
Definition stage_lines (repr : json -> str) (c : Config) (mode d : bool)
    (answer : option Response) : list str :=
  printed (metadata_lines repr c mode d answer)
  ++ match metadata_result repr c mode d answer with
     | Return _ => files_lines c mode d
     | _ => []
     end.

(** How the two network stages end and what they exchange, given how the
    metadata stage ends ([m], after the exchanges [mx]) and how the diff
    stage would end ([r2], after the exchanges [new2]). *)
Definition stage_result (m r2 : result unit) : result unit :=
  match m with
  | Return _ => r2
  | _ => m
  end.

Definition stage_exchanges (m : result unit) (mx new2 : list Exchange)
  : list Exchange :=
  mx ++ match m with
        | Return _ => new2
        | _ => []
        end.

Definition files_request (pr_number repo_ownr repo_name gh_token : str)
  : Request :=
  mkRequest (JStr (files_url pr_number repo_ownr repo_name))
    (auth_headers gh_token).

Definition content_request (contents_url : json) (gh_token : str) : Request :=
  mkRequest contents_url (auth_headers gh_token).

(** ** Reading the log of exchanges *)

(** The text each call site puts in front of the status code. *)
Definition error_prefix (site : Site) : str :=
  match site with
  | InGetFileContent => lit "Error fetching file contents: "
  | InGetPrData | InGetPrFileList => lit "Error fetching pull request: "
  end.

(** The message of the exception an exchange leads to, if its response
    has a status code other than 200. *)
Definition failure_message (e : Exchange) : option str :=
  match ex_answer e with
  | Some r =>
      if status_code r =? 200 then None
      else Some (error_prefix (ex_site e) ++ str_of_int (status_code r))
  | None => None
  end.

Definition is_metadata_fetch (e : Exchange) : bool :=
  match ex_site e with
  | InGetPrData => true
  | _ => false
  end.

Definition metadata_fetches (log : list Exchange) : list Exchange :=
  filter is_metadata_fetch log.

(** ** Traces of exchanges *)

(** A fetch that went well for the script: made at a site of [S] and not
    answered with a failing status. *)
Definition clean (S : Site -> bool) (e : Exchange) : Prop :=
  S (ex_site e) = true /\ failure_message e = None.

(** The exchanges of a computation that checks every status code: either
    none of them failed, or the last one did and its status is raised. *)
Inductive fetch_trace {A} (S : Site -> bool) : result A -> list Exchange -> Prop :=
| trace_clean r new :
    (forall code, r <> Exit code) ->
    Forall (clean S) new ->
    fetch_trace S r new
| trace_abort new e msg :
    Forall (clean S) new ->
    S (ex_site e) = true ->
    failure_message e = Some msg ->
    fetch_trace S (Raise (Exception msg)) (new ++ [e]).

(** A computation that only talks to the network: it leaves [DEBUG] and
    [stdout] alone, does not look at them, and extends the log by a
    trace of the above kind. *)
Definition fetches {A} (S : Site -> bool) (m : M A) : Prop :=
  forall env log, exists r new,
    fetch_trace S r new /\
    forall d out, m env (mkState d out log) = (r, mkState d out (log ++ new)).

(** Sets of call sites. *)
Definition only (site : Site) (s : Site) : bool :=
  match site, s with
  | InGetPrData, InGetPrData => true
  | InGetPrFileList, InGetPrFileList => true
  | InGetFileContent, InGetFileContent => true
  | _, _ => false
  end.

Definition retrieval_site (s : Site) : bool :=
  match s with
  | InGetPrData => false
  | _ => true
  end.

Definition any_site (s : Site) : bool := true.

(** The exchange of the metadata stage, when it runs at all. *)
Definition metadata_exchange (env : Env) (c : Config) (log : list Exchange)
  : list Exchange :=
  if review_title c || review_body c then
    [mkExchange InGetPrData (pr_request c) (net env log (pr_request c))]
  else [].

(** What one entry of the list of files leads to when the remote side
    serves its content: the entry has the three fields, its contents URL
    is always answered with status 200 and a document whose [content]
    field decodes to the text of the tuple. *)
Definition entry_yields (env : Env) (gh_token : str) (entry : json)
    (tuple : FileEntry) : Prop :=
  exists contents_url body content,
    getitem entry (lit "filename") = Return (fst (fst tuple)) /\
    getitem entry (lit "patch") = Return (snd (fst tuple)) /\
    getitem entry (lit "contents_url") = Return contents_url /\
    (forall log, net env log (content_request contents_url gh_token)
                 = Some (mkResponse 200 (Some body))) /\
    getitem body (lit "content") = Return content /\
    base64_to_string (OfJson content) = Return (snd tuple).


(** What a returned tuple says about its entry: the entry has the three
    fields, and its contents URL was answered, at some point of the run,
    with status 200 and a document whose [content] field decodes to the
    text of the tuple. *)
Definition entry_fetched (env : Env) (gh_token : str) (entry : json)
    (tuple : FileEntry) : Prop :=
  exists contents_url log resp body content,
    getitem entry (lit "filename") = Return (fst (fst tuple)) /\
    getitem entry (lit "patch") = Return (snd (fst tuple)) /\
    getitem entry (lit "contents_url") = Return contents_url /\
    net env log (content_request contents_url gh_token) = Some resp /\
    status_code resp = 200 /\
    resp_json resp = Some body /\
    getitem body (lit "content") = Return content /\
    base64_to_string (OfJson content) = Return (snd tuple).

(** ** Variations of a configuration *)

Definition set_max_files (n : Z) (c : Config) : Config :=
  mkConfig (pr_number c) (repo_ownr c) (repo_name c) (gh_token c)
    (review_title c) (review_body c) (review_diffs c) (debug c) (verbose c)
    n (max_tokens c) (max_input_tokens c) (max_input_tokens_pf c).

Definition set_verbose (b : bool) (c : Config) : Config :=
  mkConfig (pr_number c) (repo_ownr c) (repo_name c) (gh_token c)
    (review_title c) (review_body c) (review_diffs c) (debug c) b
    (max_files c) (max_tokens c) (max_input_tokens c) (max_input_tokens_pf c).

Definition set_limits (tokens input_tokens : Z) (c : Config) : Config :=
  mkConfig (pr_number c) (repo_ownr c) (repo_name c) (gh_token c)
    (review_title c) (review_body c) (review_diffs c) (debug c) (verbose c)
    (max_files c) tokens input_tokens (max_input_tokens_pf c).

(** The round trip of the two Base64 helpers:
    [base64_to_string(string_to_base64(s))]. *)
Definition round_trip (s : str) : result str :=
  rbind (string_to_base64 s) (fun b => base64_to_string (OfBytes b)).

(** ** Mocked endpoints *)

Module Mock.

Definition repr (v : json) : str := lit "<object>".

Definition json_response (status : Z) (body : json) : option Response :=
  Some (mkResponse status (Some body)).

Definition not_found : option Response :=
  json_response 404 (JDict [(lit "message", JStr (lit "Not Found"))]).

Definition req_is (rq : Request) (u : str) : bool :=
  match req_url rq with
  | JStr s => str_eqb s u
  | _ => false
  end.

Definition octo : text := mkText (lit "octo") eq_refl.
Definition demo : text := mkText (lit "demo") eq_refl.
Definition secret : text := mkText (lit "secret") eq_refl.

Definition config : Config := default_config 7 octo demo secret.

Definition metadata : json :=
  JDict [(lit "title", JStr (lit "Fix bug"));
         (lit "body", JStr (lit "Closes #1"))].

Definition a_py_url : str :=
  lit "https://api.github.com/repos/octo/demo/contents/a.py?ref=abc".
Definition b_py_url : str :=
  lit "https://api.github.com/repos/octo/demo/contents/b.py?ref=abc".

Definition entry (name patch u : str) : json :=
  JDict [(lit "filename", JStr name);
         (lit "patch", JStr patch);
         (lit "contents_url", JStr u)].

Definition a_py : json := entry (lit "a.py") (lit "@@ ...") a_py_url.
Definition b_py : json := entry (lit "b.py") (lit "@@ -1 +1 @@") b_py_url.

Definition content_of (b64 : str) : json := JDict [(lit "content", JStr b64)].

(** Every endpoint answers 200: the metadata, a list with [a.py] alone,
    and the Base64 text of [print(1)]. *)
Definition healthy : Env :=
  mkEnv
    (fun _ rq =>
       if req_is rq (pr_url (lit "7") (lit "octo") (lit "demo")) then
         json_response 200 metadata
       else if req_is rq (files_url (lit "7") (lit "octo") (lit "demo")) then
         json_response 200 (JList [a_py])
       else if req_is rq a_py_url then
         json_response 200 (content_of (lit "cHJpbnQoMSk="))
       else not_found)
    repr.


(** The list names [a.py] and [b.py], and the content of [a.py] is gone. *)
Definition broken_content : Env :=
  mkEnv
    (fun _ rq =>
       if req_is rq (files_url (lit "7") (lit "octo") (lit "demo")) then
         json_response 200 (JList [a_py; b_py])
       else if req_is rq b_py_url then
         json_response 200 (content_of (lit "cHJpbnQoMSk="))
       else not_found)
    repr.

End Mock.

(** ** Further vocabulary *)


(** A computation whose every new exchange satisfies [P]. *)
Definition exchanges_satisfy {A} (P : Exchange -> Prop) (m : M A) : Prop :=
  forall env st, exists new,
    http_log (snd (m env st)) = http_log st ++ new /\ Forall P new.

Definition authenticated (gh_token : str) (e : Exchange) : Prop :=
  req_headers (ex_request e) = auth_headers gh_token.

(** The three fields [get_pr_file_list] reads from an entry, in the order
    in which it reads them. *)
Definition entry_fields (entry : json) : result (json * json * json) :=
  rbind (getitem entry (lit "filename")) (fun filename =>
  rbind (getitem entry (lit "patch")) (fun patch =>
  rbind (getitem entry (lit "contents_url")) (fun contents_url =>
  Return (filename, patch, contents_url)))).

(** The exchange of the content fetch of an entry that went well. *)
Definition entry_exchange (gh_token : str) (entry : json) (x : Exchange)
  : Prop :=
  ex_site x = InGetFileContent /\
  getitem entry (lit "contents_url") = Return (req_url (ex_request x)) /\
  req_headers (ex_request x) = auth_headers gh_token /\
  exists resp, ex_answer x = Some resp /\ status_code resp = 200.

(** The characters [b64decode] does not skip: the digits of the alphabet
    and the padding character. *)
Definition b64_significant (c : Z) : bool :=
  (c =? Codec.BASE64_PAD)
  || match Codec.table_a2b_base64 c with
     | Some _ => true
     | None => false
     end.

Definition is_ascii (s : str) : bool := forallb (fun c => c <? 0x80) s.

(** A digit or the padding character, as an ASCII character. *)
Definition plain (c : Z) : bool := b64_significant c && (c <? 0x80).

(** The bodies, other than arrays, over which a [for] loop runs zero
    times: the empty string and the empty object. *)
Definition empty_container (body : json) : bool :=
  match body with
  | JStr [] => true
  | JDict [] => true
  | _ => false
  end.


(** More mocked endpoints. *)
Module MockMore.

(** An entry as the API lists a binary file: without [patch]. *)
Definition logo_png : json :=
  JDict [(lit "filename", JStr (lit "logo.png"));
         (lit "contents_url",
          JStr (lit "https://api.github.com/repos/octo/demo/contents/logo.png"))].

(** The list names [a.py], the binary file and [b.py]; contents are
    served with a line break after every four digits. *)
Definition with_binary : Env :=
  mkEnv
    (fun _ rq =>
       if Mock.req_is rq (files_url (lit "7") (lit "octo") (lit "demo")) then
         Mock.json_response 200 (JList [Mock.a_py; logo_png; Mock.b_py])
       else if Mock.req_is rq Mock.a_py_url then
         Mock.json_response 200
           (Mock.content_of (lit "cHJp" ++ NL ++ lit "bnQo" ++ NL
                             ++ lit "MSk=" ++ NL))
       else Mock.not_found)
    Mock.repr.


(** The metadata has a title and a null body; the list of files is
    answered with status 200 and an object instead of an array. *)
Definition null_body : Env :=
  mkEnv
    (fun _ rq =>
       if Mock.req_is rq (pr_url (lit "7") (lit "octo") (lit "demo")) then
         Mock.json_response 200
           (JDict [(lit "title", JStr (lit "Fix bug")); (lit "body", JNull)])
       else if Mock.req_is rq (files_url (lit "7") (lit "octo") (lit "demo"))
       then Mock.json_response 200
              (JDict [(lit "message", JStr (lit "Moved"))])
       else Mock.not_found)
    Mock.repr.

(** The metadata is served; the list of files is not. *)
Definition list_missing : Env :=
  mkEnv
    (fun _ rq =>
       if Mock.req_is rq (pr_url (lit "7") (lit "octo") (lit "demo")) then
         Mock.json_response 200 Mock.metadata
       else Mock.not_found)
    Mock.repr.






End MockMore.

(** * Properties *)

(** ** Bit operations as arithmetic *)

Module Bits.

Lemma land_mul_pow2_low hi lo n :
  0 <= n -> 0 <= lo < 2 ^ n -> Z.land (hi * 2 ^ n) lo = 0.
Proof.
  intros Hn Hlo. apply Z.bits_inj'. intros i Hi.
  rewrite Z.land_spec, Z.bits_0.
  destruct (Z.lt_ge_cases i n) as [Hlt | Hge].
  - rewrite Z.mul_pow2_bits_low by lia. reflexivity.
  - rewrite <- (Z.mod_small lo (2 ^ n)) by lia.
    rewrite Z.mod_pow2_bits_high by lia. apply andb_false_r.
Qed.

Lemma lor_mul_pow2 hi lo n :
  0 <= n -> 0 <= lo < 2 ^ n -> Z.lor (hi * 2 ^ n) lo = hi * 2 ^ n + lo.
Proof.
  intros Hn Hlo.
  rewrite <- (Zbitwise.Z.add_lor_land (hi * 2 ^ n) lo).
  rewrite land_mul_pow2_low by assumption. lia.
Qed.

Lemma lor_shiftl hi lo n :
  0 <= n -> 0 <= lo < 2 ^ n -> Z.lor (Z.shiftl hi n) lo = hi * 2 ^ n + lo.
Proof.
  intros Hn Hlo. rewrite Z.shiftl_mul_pow2 by assumption.
  apply lor_mul_pow2; assumption.
Qed.

Lemma lor_const c hi n lo :
  c = hi * 2 ^ n -> 0 <= n -> 0 <= lo < 2 ^ n -> Z.lor c lo = c + lo.
Proof. intros ->. apply lor_mul_pow2. Qed.

Lemma land_low x m n : m = Z.ones n -> 0 <= n -> Z.land x m = x mod 2 ^ n.
Proof. intros -> Hn. apply Z.land_ones; assumption. Qed.

Lemma land_0x3F x : Z.land x 0x3F = x mod 64.
Proof. apply (land_low x 0x3F 6); [reflexivity | lia]. Qed.

Lemma land_0x0F x : Z.land x 0x0F = x mod 16.
Proof. apply (land_low x 0x0F 4); [reflexivity | lia]. Qed.

Lemma land_0x03 x : Z.land x 0x03 = x mod 4.
Proof. apply (land_low x 0x03 2); [reflexivity | lia]. Qed.

Lemma land_0xFF x : Z.land x 0xFF = x mod 256.
Proof. apply (land_low x 0xFF 8); [reflexivity | lia]. Qed.

Lemma shiftr_lit x n : 0 <= n -> Z.shiftr x n = x / 2 ^ n.
Proof. apply Z.shiftr_div_pow2. Qed.

Lemma shiftl_lit x n : 0 <= n -> Z.shiftl x n = x * 2 ^ n.
Proof. apply Z.shiftl_mul_pow2. Qed.

End Bits.

Create Rewrite HintDb bits.
#[local] Hint Rewrite Bits.land_0x3F Bits.land_0x0F Bits.land_0x03
  Bits.land_0xFF : bits.
#[local] Hint Rewrite Bits.shiftr_lit Bits.shiftl_lit using lia : bits.

(** Rewrites masks and shifts into [mod], [/] and [*] with literal powers. *)
Ltac bits_to_arith :=
  autorewrite with bits;
  change (2 ^ 2) with 4; change (2 ^ 4) with 16; change (2 ^ 6) with 64;
  change (2 ^ 12) with 4096; change (2 ^ 18) with 262144.

(** Linear arithmetic with division and remainder by literals. *)
Ltac zarith := Z.div_mod_to_equations; lia.

(** Settles every comparison of the goal that the context decides. *)
Ltac decide_tests :=
  repeat match goal with
    | |- context [?a <? ?b] => destruct (Z.ltb_spec a b); try zarith
    | |- context [?a <=? ?b] => destruct (Z.leb_spec a b); try zarith
    | |- context [?a =? ?b] => destruct (Z.eqb_spec a b); try zarith
    end.

(** ** UTF-8 *)

Module Utf8.
Import Codec.
#[local] Opaque Z.lor Z.land Z.shiftr Z.shiftl.

Lemma code_point_range ch : is_code_point ch = true <-> 0 <= ch <= 0x10FFFF.
Proof. unfold is_code_point. rewrite andb_true_iff, !Z.leb_le. tauto. Qed.

Lemma surrogate_range ch :
  is_surrogate ch = false <-> (ch < 0xD800 \/ 0xDFFF < ch).
Proof.
  unfold is_surrogate. rewrite andb_false_iff, !Z.leb_gt. tauto.
Qed.

Lemma decode_1 ch rest :
  0 <= ch < 0x80 ->
  utf8_decode (ch :: rest) = option_map (cons ch) (utf8_decode rest).
Proof. intros H. cbn [utf8_decode]. decide_tests; reflexivity. Qed.

Lemma decode_2 ch rest :
  0x80 <= ch < 0x800 ->
  utf8_decode (Z.lor 0xC0 (Z.shiftr ch 6) :: Z.lor 0x80 (Z.land ch 0x3F) :: rest)
  = option_map (cons ch) (utf8_decode rest).
Proof.
  intros H. bits_to_arith.
  rewrite (Bits.lor_const 0xC0 3 6), (Bits.lor_const 0x80 2 6)
    by (try reflexivity; zarith).
  cbn [utf8_decode]. unfold is_continuation. bits_to_arith.
  cbn [andb negb]. decide_tests. cbn [andb negb].
  do 2 f_equal. zarith.
Qed.

Lemma decode_3 ch rest :
  0x800 <= ch < 0x10000 -> is_surrogate ch = false ->
  utf8_decode (Z.lor 0xE0 (Z.shiftr ch 12)
               :: Z.lor 0x80 (Z.land (Z.shiftr ch 6) 0x3F)
               :: Z.lor 0x80 (Z.land ch 0x3F) :: rest)
  = option_map (cons ch) (utf8_decode rest).
Proof.
  intros H Hs. apply surrogate_range in Hs. bits_to_arith.
  rewrite (Bits.lor_const 0xE0 14 4), !(Bits.lor_const 0x80 2 6)
    by (try reflexivity; zarith).
  cbn [utf8_decode]. unfold is_continuation. bits_to_arith.
  decide_tests; cbn [andb negb]; decide_tests; cbn [andb negb].
  all: do 2 f_equal; zarith.
Qed.

Lemma decode_4 ch rest :
  0x10000 <= ch <= 0x10FFFF ->
  utf8_decode (Z.lor 0xF0 (Z.shiftr ch 18)
               :: Z.lor 0x80 (Z.land (Z.shiftr ch 12) 0x3F)
               :: Z.lor 0x80 (Z.land (Z.shiftr ch 6) 0x3F)
               :: Z.lor 0x80 (Z.land ch 0x3F) :: rest)
  = option_map (cons ch) (utf8_decode rest).
Proof.
  intros H. bits_to_arith.
  rewrite (Bits.lor_const 0xF0 30 3), !(Bits.lor_const 0x80 2 6)
    by (try reflexivity; zarith).
  cbn [utf8_decode]. unfold is_continuation. bits_to_arith.
  decide_tests; cbn [andb negb]; decide_tests; cbn [andb negb].
  all: do 2 f_equal; zarith.
Qed.

(** Decoding undoes the encoding of one code point, whatever follows. *)
Lemma decode_encode_cp ch b rest :
  is_code_point ch = true ->
  utf8_encode_cp ch = Some b ->
  utf8_decode (b ++ rest) = option_map (cons ch) (utf8_decode rest).
Proof.
  intros Hcp%code_point_range. unfold utf8_encode_cp.
  destruct (Z.ltb_spec ch 0x80).
  { intros [= <-]. apply decode_1. lia. }
  destruct (Z.ltb_spec ch 0x800).
  { intros [= <-]. apply decode_2. lia. }
  destruct (is_surrogate ch) eqn:Hs; [discriminate |].
  destruct (Z.ltb_spec ch 0x10000).
  { intros [= <-]. apply decode_3; [lia | assumption]. }
  intros [= <-]. apply decode_4. lia.
Qed.

(** Surrogates are the only code points that UTF-8 refuses. *)
Lemma encode_cp_defined ch :
  is_surrogate ch = false -> exists b, utf8_encode_cp ch = Some b.
Proof.
  intros Hs. unfold utf8_encode_cp.
  destruct (ch <? 0x80); [eauto |].
  destruct (ch <? 0x800); [eauto |].
  rewrite Hs. destruct (ch <? 0x10000); eauto.
Qed.

Lemma encode_cp_surrogate ch :
  is_surrogate ch = true -> utf8_encode_cp ch = None.
Proof.
  intros Hs. unfold utf8_encode_cp. rewrite Hs.
  unfold is_surrogate in Hs. apply andb_true_iff in Hs as [H1%Z.leb_le _].
  decide_tests; reflexivity.
Qed.

Lemma encode_defined s :
  no_surrogates s = true -> exists b, utf8_encode s = Some b.
Proof.
  induction s as [| ch s IH]; cbn [no_surrogates forallb utf8_encode].
  - eauto.
  - intros [Hch Hs]%andb_true_iff. apply negb_true_iff in Hch.
    destruct (encode_cp_defined ch Hch) as [b ->].
    destruct (IH Hs) as [bs ->]. eauto.
Qed.

Lemma utf8_round_trip s b :
  wf_str s = true -> utf8_encode s = Some b -> utf8_decode b = Some s.
Proof.
  revert b. induction s as [| ch s IH]; intros b; cbn [wf_str forallb utf8_encode].
  - intros _ [= <-]. reflexivity.
  - intros [Hch Hs]%andb_true_iff.
    destruct (utf8_encode_cp ch) as [b1 |] eqn:E1; [| discriminate].
    destruct (utf8_encode s) as [bs |] eqn:E2; [| discriminate].
    intros [= <-]. rewrite (decode_encode_cp ch b1 bs Hch E1).
    rewrite (IH bs Hs eq_refl). reflexivity.
Qed.

(** The encoder only writes octets. *)
Lemma encode_cp_bytes ch b :
  is_code_point ch = true -> utf8_encode_cp ch = Some b -> wf_bytes b = true.
Proof.
  intros Hcp%code_point_range. unfold utf8_encode_cp.
  destruct (Z.ltb_spec ch 0x80).
  { intros [= <-]. unfold wf_bytes, is_byte. cbn [forallb]. decide_tests; reflexivity. }
  destruct (Z.ltb_spec ch 0x800).
  { intros [= <-]. bits_to_arith.
    rewrite (Bits.lor_const 0xC0 3 6), (Bits.lor_const 0x80 2 6)
      by (try reflexivity; zarith).
    unfold wf_bytes, is_byte. cbn [forallb]. decide_tests; reflexivity. }
  destruct (is_surrogate ch) eqn:Hs; [discriminate |].
  destruct (Z.ltb_spec ch 0x10000).
  { intros [= <-]. bits_to_arith.
    rewrite (Bits.lor_const 0xE0 14 4), !(Bits.lor_const 0x80 2 6)
      by (try reflexivity; zarith).
    unfold wf_bytes, is_byte. cbn [forallb]. decide_tests; reflexivity. }
  intros [= <-]. bits_to_arith.
  rewrite (Bits.lor_const 0xF0 30 3), !(Bits.lor_const 0x80 2 6)
    by (try reflexivity; zarith).
  unfold wf_bytes, is_byte. cbn [forallb]. decide_tests; reflexivity.
Qed.

Lemma encode_bytes s b :
  wf_str s = true -> utf8_encode s = Some b -> wf_bytes b = true.
Proof.
  revert b. induction s as [| ch s IH]; intros b; cbn [wf_str forallb utf8_encode].
  - intros _ [= <-]. reflexivity.
  - intros [Hch Hs]%andb_true_iff.
    destruct (utf8_encode_cp ch) as [b1 |] eqn:E1; [| discriminate].
    destruct (utf8_encode s) as [bs |] eqn:E2; [| discriminate].
    intros [= <-]. unfold wf_bytes. rewrite forallb_app.
    apply andb_true_iff. split.
    + apply (encode_cp_bytes ch); assumption.
    + apply IH; [assumption | reflexivity].
Qed.

End Utf8.

(** ** Base64 *)

Module Base64.
Import Codec.
#[local] Opaque Z.lor Z.land Z.shiftr Z.shiftl.

Lemma byte_range b : is_byte b = true <-> 0 <= b < 256.
Proof. unfold is_byte. rewrite andb_true_iff, Z.leb_le, Z.ltb_lt. tauto. Qed.

(** The two tables are inverse on the 64 digit values, and no digit is
    written as the padding character. *)
Lemma table_inverse v :
  0 <= v < 64 ->
  table_a2b_base64 (table_b2a_base64 v) = Some v
  /\ table_b2a_base64 v <> BASE64_PAD.
Proof.
  intros H. unfold table_a2b_base64, table_b2a_base64, BASE64_PAD.
  destruct (Z.ltb_spec v 26); [| destruct (Z.ltb_spec v 52);
    [| destruct (Z.ltb_spec v 62); [| destruct (Z.eqb_spec v 62)]]].
  all: split; [| lia].
  all: decide_tests; cbn [andb]; try (f_equal; lia); decide_tests.
Qed.

Lemma list_ind3 {A} (P : list A -> Prop) :
  P [] -> (forall x, P [x]) -> (forall x y, P [x; y]) ->
  (forall x y z l, P l -> P (x :: y :: z :: l)) ->
  forall l, P l.
Proof.
  intros H0 H1 H2 H3. fix IH 1.
  intros [| x [| y [| z l]]];
    [apply H0 | apply H1 | apply H2 | apply H3, IH].
Qed.

Section Steps.
Variables (v : Z) (rest : bytes) (leftchar pads : Z).
Hypothesis Hv : 0 <= v < 64.

Lemma step0 :
  a2b_base64 (table_b2a_base64 v :: rest) 0 leftchar pads
  = a2b_base64 rest 1 v 0.
Proof.
  destruct (table_inverse v Hv) as [Hinv Hpad].
  cbn [a2b_base64]. rewrite Hinv.
  destruct (Z.eqb_spec (table_b2a_base64 v) BASE64_PAD); [contradiction |].
  reflexivity.
Qed.

Lemma step1 :
  a2b_base64 (table_b2a_base64 v :: rest) 1 leftchar pads
  = option_map (cons ((leftchar * 4 + v / 16) mod 256))
      (a2b_base64 rest 2 (v mod 16) 0).
Proof.
  destruct (table_inverse v Hv) as [Hinv Hpad].
  cbn [a2b_base64]. rewrite Hinv.
  destruct (Z.eqb_spec (table_b2a_base64 v) BASE64_PAD); [contradiction |].
  cbn [Z.eqb Pos.eqb]. rewrite Bits.shiftr_lit by lia.
  rewrite Bits.lor_shiftl by zarith. bits_to_arith. reflexivity.
Qed.

Lemma step2 :
  a2b_base64 (table_b2a_base64 v :: rest) 2 leftchar pads
  = option_map (cons ((leftchar * 16 + v / 4) mod 256))
      (a2b_base64 rest 3 (v mod 4) 0).
Proof.
  destruct (table_inverse v Hv) as [Hinv Hpad].
  cbn [a2b_base64]. rewrite Hinv.
  destruct (Z.eqb_spec (table_b2a_base64 v) BASE64_PAD); [contradiction |].
  cbn [Z.eqb Pos.eqb]. rewrite Bits.shiftr_lit by lia.
  rewrite Bits.lor_shiftl by zarith. bits_to_arith. reflexivity.
Qed.

Lemma step3 :
  a2b_base64 (table_b2a_base64 v :: rest) 3 leftchar pads
  = option_map (cons ((leftchar * 64 + v) mod 256)) (a2b_base64 rest 0 0 0).
Proof.
  destruct (table_inverse v Hv) as [Hinv Hpad].
  cbn [a2b_base64]. rewrite Hinv.
  destruct (Z.eqb_spec (table_b2a_base64 v) BASE64_PAD); [contradiction |].
  cbn [Z.eqb Pos.eqb].
  rewrite Bits.lor_shiftl by zarith. bits_to_arith. reflexivity.
Qed.
End Steps.

(** The digits written for one, two and three octets. *)
Lemma digits_1 x :
  0 <= x < 256 ->
  0 <= Z.shiftr x 2 < 64 /\ 0 <= Z.shiftl (Z.land x 3) 4 < 64.
Proof. intros H. bits_to_arith. zarith. Qed.

Lemma digits_2 x y :
  0 <= x < 256 -> 0 <= y < 256 ->
  Z.lor (Z.shiftl (Z.land x 3) 4) (Z.shiftr y 4) = x mod 4 * 16 + y / 16
  /\ 0 <= Z.shiftl (Z.land y 0xF) 2 < 64.
Proof.
  intros Hx Hy. split.
  - rewrite Bits.lor_shiftl; bits_to_arith; zarith.
  - bits_to_arith. zarith.
Qed.

Lemma digits_3 y z :
  0 <= y < 256 -> 0 <= z < 256 ->
  Z.lor (Z.shiftl (Z.land y 0xF) 2) (Z.shiftr z 6) = y mod 16 * 4 + z / 64
  /\ 0 <= Z.land z 0x3F < 64.
Proof.
  intros Hy Hz. split.
  - rewrite Bits.lor_shiftl; bits_to_arith; zarith.
  - bits_to_arith. zarith.
Qed.

(** A full group of four digits gives back its three octets and leaves
    the decoder in its initial state. *)
Lemma decode_group x y z rest lc pads :
  0 <= x < 256 -> 0 <= y < 256 -> 0 <= z < 256 ->
  a2b_base64
    (table_b2a_base64 (Z.shiftr x 2)
     :: table_b2a_base64 (Z.lor (Z.shiftl (Z.land x 3) 4) (Z.shiftr y 4))
     :: table_b2a_base64 (Z.lor (Z.shiftl (Z.land y 0xF) 2) (Z.shiftr z 6))
     :: table_b2a_base64 (Z.land z 0x3F) :: rest) 0 lc pads
  = option_map (fun out => x :: y :: z :: out) (a2b_base64 rest 0 0 0).
Proof.
  intros Hx Hy Hz.
  destruct (digits_1 x Hx) as [Hd0 _].
  destruct (digits_2 x y Hx Hy) as [-> _].
  destruct (digits_3 y z Hy Hz) as [-> Hd3].
  rewrite step0 by assumption.
  rewrite step1 by zarith. rewrite step2 by zarith.
  rewrite step3 by assumption.
  bits_to_arith.
  destruct (a2b_base64 rest 0 0 0) as [out |]; cbn [option_map]; [| reflexivity].
  f_equal. f_equal; [zarith | f_equal; [zarith | f_equal; zarith]].
Qed.

Lemma decode_tail_1 x lc pads :
  0 <= x < 256 ->
  a2b_base64
    [table_b2a_base64 (Z.shiftr x 2);
     table_b2a_base64 (Z.shiftl (Z.land x 3) 4);
     BASE64_PAD; BASE64_PAD] 0 lc pads
  = Some [x].
Proof.
  intros Hx. destruct (digits_1 x Hx) as [Hd0 Hd1].
  rewrite step0 by assumption. rewrite step1 by assumption.
  cbn. bits_to_arith. do 2 f_equal. zarith.
Qed.

Lemma decode_tail_2 x y lc pads :
  0 <= x < 256 -> 0 <= y < 256 ->
  a2b_base64
    [table_b2a_base64 (Z.shiftr x 2);
     table_b2a_base64 (Z.lor (Z.shiftl (Z.land x 3) 4) (Z.shiftr y 4));
     table_b2a_base64 (Z.shiftl (Z.land y 0xF) 2);
     BASE64_PAD] 0 lc pads
  = Some [x; y].
Proof.
  intros Hx Hy. destruct (digits_1 x Hx) as [Hd0 _].
  destruct (digits_2 x y Hx Hy) as [-> Hd2].
  rewrite step0 by assumption. rewrite step1 by zarith.
  rewrite step2 by assumption.
  cbn. bits_to_arith. f_equal. f_equal; [zarith | f_equal; zarith].
Qed.

(** [b64decode] undoes [b64encode] on every sequence of octets. *)
Lemma base64_round_trip b :
  wf_bytes b = true -> b64decode (b64encode b) = Some b.
Proof.
  unfold b64decode, wf_bytes.
  induction b as [| x | x y | x y z b IH] using list_ind3;
    cbn [forallb b64encode]; rewrite ?andb_true_iff, ?byte_range.
  - reflexivity.
  - intros [Hx _]. apply decode_tail_1. assumption.
  - intros (Hx & Hy & _). apply decode_tail_2; assumption.
  - intros (Hx & Hy & Hz & Hb).
    rewrite decode_group by assumption. rewrite (IH Hb). reflexivity.
Qed.

End Base64.

(** ** Further properties of the codecs *)

Module Utf8Facts.
Import Codec.
#[local] Opaque Z.lor Z.land Z.shiftr Z.shiftl.

Lemma continuation_range b : is_continuation b = true <-> 0x80 <= b < 0xC0.
Proof.
  unfold is_continuation. rewrite andb_true_iff, Z.leb_le, Z.ltb_lt. tauto.
Qed.

Lemma scalar cp :
  0 <= cp <= 0x10FFFF -> (cp < 0xD800 \/ 0xDFFF < cp) ->
  is_code_point cp = true /\ is_surrogate cp = false.
Proof.
  intros H1 H2. split.
  - apply Utf8.code_point_range. exact H1.
  - apply Utf8.surrogate_range. exact H2.
Qed.

(** What the decoder accepts as a sequence of two, three or four octets
    is what the encoder writes for the code point it stands for. *)
Lemma encode_decoded_2 ch ch2 :
  0xC2 <= ch < 0xE0 -> 0x80 <= ch2 < 0xC0 ->
  let cp := Z.shiftl ch 6 + ch2 - (Z.shiftl 0xC0 6 + 0x80) in
  utf8_encode_cp cp = Some [ch; ch2] /\
  is_code_point cp = true /\ is_surrogate cp = false.
Proof.
  intros H1 H2 cp. subst cp. bits_to_arith.
  set (cp := ch * 64 + ch2 - (192 * 64 + 128)).
  assert (Hcp : 0x80 <= cp < 0x800) by (subst cp; lia).
  split; [| apply scalar; lia].
  unfold utf8_encode_cp. decide_tests. bits_to_arith.
  rewrite (Bits.lor_const 0xC0 3 6), (Bits.lor_const 0x80 2 6)
    by (try reflexivity; zarith).
  subst cp. do 2 f_equal; [zarith | f_equal; zarith].
Qed.

Lemma encode_decoded_3 ch ch2 ch3 :
  0xE0 <= ch < 0xF0 -> 0x80 <= ch2 < 0xC0 -> 0x80 <= ch3 < 0xC0 ->
  (ch = 0xE0 -> 0xA0 <= ch2) -> (ch = 0xED -> ch2 < 0xA0) ->
  let cp := Z.shiftl ch 12 + Z.shiftl ch2 6 + ch3
            - (Z.shiftl 0xE0 12 + Z.shiftl 0x80 6 + 0x80) in
  utf8_encode_cp cp = Some [ch; ch2; ch3] /\
  is_code_point cp = true /\ is_surrogate cp = false.
Proof.
  intros H1 H2 H3 Hlow Hsur cp. subst cp. bits_to_arith.
  set (cp := ch * 4096 + ch2 * 64 + ch3 - (224 * 4096 + 128 * 64 + 128)).
  assert (Hcp : 0x800 <= cp < 0x10000) by (subst cp; lia).
  assert (Hs : cp < 0xD800 \/ 0xDFFF < cp) by (subst cp; lia).
  split; [| apply scalar; lia].
  unfold utf8_encode_cp.
  rewrite (proj2 (Utf8.surrogate_range cp) Hs).
  decide_tests. bits_to_arith.
  rewrite (Bits.lor_const 0xE0 14 4), !(Bits.lor_const 0x80 2 6)
    by (try reflexivity; zarith).
  subst cp. do 2 f_equal; [zarith | f_equal; [zarith | f_equal; zarith]].
Qed.

Lemma encode_decoded_4 ch ch2 ch3 ch4 :
  0xF0 <= ch < 0xF5 ->
  0x80 <= ch2 < 0xC0 -> 0x80 <= ch3 < 0xC0 -> 0x80 <= ch4 < 0xC0 ->
  (ch = 0xF0 -> 0x90 <= ch2) -> (ch = 0xF4 -> ch2 < 0x90) ->
  let cp := Z.shiftl ch 18 + Z.shiftl ch2 12 + Z.shiftl ch3 6 + ch4
            - (Z.shiftl 0xF0 18 + Z.shiftl 0x80 12 + Z.shiftl 0x80 6 + 0x80) in
  utf8_encode_cp cp = Some [ch; ch2; ch3; ch4] /\
  is_code_point cp = true /\ is_surrogate cp = false.
Proof.
  intros H1 H2 H3 H4 Hlow Hhigh cp. subst cp. bits_to_arith.
  set (cp := ch * 262144 + ch2 * 4096 + ch3 * 64 + ch4
             - (240 * 262144 + 128 * 4096 + 128 * 64 + 128)).
  assert (Hcp : 0x10000 <= cp <= 0x10FFFF) by (subst cp; lia).
  split; [| apply scalar; lia].
  unfold utf8_encode_cp.
  rewrite (proj2 (Utf8.surrogate_range cp)) by lia.
  decide_tests. bits_to_arith.
  rewrite (Bits.lor_const 0xF0 30 3), !(Bits.lor_const 0x80 2 6)
    by (try reflexivity; zarith).
  subst cp.
  do 2 f_equal; [zarith | f_equal; [zarith | f_equal; [zarith | f_equal; zarith]]].
Qed.

Lemma cons_sound cp enc rest s :
  utf8_encode_cp cp = Some enc ->
  is_code_point cp = true /\ is_surrogate cp = false ->
  wf_str s = true /\ no_surrogates s = true /\ utf8_encode s = Some rest ->
  wf_str (cp :: s) = true /\ no_surrogates (cp :: s) = true
  /\ utf8_encode (cp :: s) = Some (enc ++ rest).
Proof.
  intros Henc [Hcp Hsur] (Hwf & Hns & Hs).
  unfold wf_str, no_surrogates. cbn [forallb utf8_encode].
  rewrite Henc, Hs, Hcp, Hsur. repeat split; assumption.
Qed.

(** Strict decoding is the inverse of encoding: what it accepts is the
    encoding of what it returns, a string of scalar values. *)
Lemma decode_sound_bounded n :
  forall b s,
    (List.length b <= n)%nat ->
    wf_bytes b = true ->
    utf8_decode b = Some s ->
    wf_str s = true /\ no_surrogates s = true /\ utf8_encode s = Some b.
Proof.
  induction n as [| n IH]; intros b s Hlen Hwf Hdec.
  { destruct b; [| cbn in Hlen; lia]. injection Hdec as <-. repeat split. }
  destruct b as [| ch rest]; [injection Hdec as <-; repeat split |].
  cbn [List.length] in Hlen.
  unfold wf_bytes in Hwf. cbn [forallb] in Hwf.
  apply andb_true_iff in Hwf as [Hch Hrest]. apply Base64.byte_range in Hch.
  cbn [utf8_decode] in Hdec.
  destruct (Z.ltb_spec ch 0x80).
  { destruct (utf8_decode rest) as [s' |] eqn:E; [| discriminate].
    injection Hdec as <-.
    apply (cons_sound ch [ch] rest s').
    - unfold utf8_encode_cp. decide_tests; reflexivity.
    - apply scalar; lia.
    - apply IH; [lia | exact Hrest | exact E]. }
  destruct (Z.ltb_spec ch 0xC2); [discriminate |].
  destruct (Z.ltb_spec ch 0xE0).
  { destruct rest as [| ch2 rest]; [discriminate |].
    cbn [forallb List.length] in Hrest, Hlen.
    apply andb_true_iff in Hrest as [_ Hrest].
    destruct (is_continuation ch2) eqn:C2; [| discriminate].
    apply continuation_range in C2.
    destruct (utf8_decode rest) as [s' |] eqn:E; [| discriminate].
    injection Hdec as <-.
    destruct (encode_decoded_2 ch ch2) as [Henc Hscalar]; try lia.
    apply (cons_sound _ [ch; ch2] rest s' Henc Hscalar).
    apply IH; [lia | exact Hrest | exact E]. }
  destruct (Z.ltb_spec ch 0xF0).
  { destruct rest as [| ch2 [| ch3 rest]]; try discriminate.
    cbn [forallb List.length] in Hrest, Hlen.
    apply andb_true_iff in Hrest as [_ Hrest].
    apply andb_true_iff in Hrest as [_ Hrest].
    destruct (is_continuation ch2) eqn:C2; [| discriminate].
    apply continuation_range in C2. cbn [negb] in Hdec.
    destruct (Z.eqb_spec ch 0xE0), (Z.ltb_spec ch2 0xA0);
      cbn [andb] in Hdec; try discriminate.
    all: destruct (Z.eqb_spec ch 0xED), (Z.leb_spec 0xA0 ch2);
      cbn [andb] in Hdec; try discriminate; try lia.
    all: destruct (is_continuation ch3) eqn:C3; [| discriminate];
      apply continuation_range in C3; cbn [negb] in Hdec;
      destruct (utf8_decode rest) as [s' |] eqn:E; [| discriminate];
      injection Hdec as <-;
      destruct (encode_decoded_3 ch ch2 ch3) as [Henc Hscalar]; try lia;
      apply (cons_sound _ [ch; ch2; ch3] rest s' Henc Hscalar);
      apply IH; [lia | exact Hrest | exact E]. }
  destruct (Z.ltb_spec ch 0xF5); [| discriminate].
  destruct rest as [| ch2 [| ch3 [| ch4 rest]]]; try discriminate.
  cbn [forallb List.length] in Hrest, Hlen.
  apply andb_true_iff in Hrest as [_ Hrest].
  apply andb_true_iff in Hrest as [_ Hrest].
  apply andb_true_iff in Hrest as [_ Hrest].
  destruct (is_continuation ch2) eqn:C2; [| discriminate].
  apply continuation_range in C2. cbn [negb] in Hdec.
  destruct (Z.eqb_spec ch 0xF0), (Z.ltb_spec ch2 0x90);
    cbn [andb] in Hdec; try discriminate.
  all: destruct (Z.eqb_spec ch 0xF4), (Z.leb_spec 0x90 ch2);
    cbn [andb] in Hdec; try discriminate; try lia.
  all: destruct (is_continuation ch3) eqn:C3; [| discriminate];
    apply continuation_range in C3; cbn [negb] in Hdec;
    destruct (is_continuation ch4) eqn:C4; [| discriminate];
    apply continuation_range in C4; cbn [negb] in Hdec;
    destruct (utf8_decode rest) as [s' |] eqn:E; [| discriminate];
    injection Hdec as <-;
    destruct (encode_decoded_4 ch ch2 ch3 ch4) as [Henc Hscalar]; try lia;
    apply (cons_sound _ [ch; ch2; ch3; ch4] rest s' Henc Hscalar);
    apply IH; [lia | exact Hrest | exact E].
Qed.

Lemma decode_sound b s :
  wf_bytes b = true ->
  utf8_decode b = Some s ->
  wf_str s = true /\ no_surrogates s = true /\ utf8_encode s = Some b.
Proof. apply (decode_sound_bounded (List.length b)). lia. Qed.

End Utf8Facts.

Module Base64Facts.
Import Codec.
#[local] Opaque Z.lor Z.land Z.shiftr Z.shiftl.

Lemma masked_is_byte x : is_byte (Z.land x 0xFF) = true.
Proof.
  apply Base64.byte_range. rewrite Bits.land_0xFF.
  apply Z.mod_pos_bound. lia.
Qed.

(** The decoder only writes octets. *)
Lemma a2b_bytes input :
  forall quad_pos leftchar pads out,
    a2b_base64 input quad_pos leftchar pads = Some out ->
    wf_bytes out = true.
Proof.
  induction input as [| ch rest IH]; intros q l p out; cbn [a2b_base64].
  - destruct (q =? 0); [intros [= <-]; reflexivity | discriminate].
  - destruct (ch =? BASE64_PAD).
    { destruct (2 <=? q); [| apply IH].
      destruct (4 <=? q + (p + 1)); [intros [= <-]; reflexivity | apply IH]. }
    destruct (table_a2b_base64 ch) as [v |]; [| apply IH].
    destruct (q =? 0); [apply IH |].
    destruct (q =? 1); [| destruct (q =? 2)].
    all: match goal with
         | |- option_map _ ?rec = _ -> _ =>
             destruct rec as [tail |] eqn:E; [| discriminate];
             intros [= <-]; unfold wf_bytes; cbn [forallb];
             rewrite masked_is_byte; exact (IH _ _ _ _ E)
         end.
Qed.

(** Characters outside the alphabet, line breaks among them, do not
    change what is decoded. *)
Lemma a2b_skips input :
  forall quad_pos leftchar pads,
    a2b_base64 (filter b64_significant input) quad_pos leftchar pads
    = a2b_base64 input quad_pos leftchar pads.
Proof.
  induction input as [| ch rest IH]; intros q l p; [reflexivity |].
  cbn [filter]. unfold b64_significant at 1.
  destruct (Z.eqb_spec ch BASE64_PAD) as [Hpad | Hpad]; cbn [orb].
  - subst ch. cbn [a2b_base64]. rewrite Z.eqb_refl, !IH. reflexivity.
  - destruct (table_a2b_base64 ch) as [v |] eqn:Hv.
    + cbn [a2b_base64]. rewrite Hv, !IH. reflexivity.
    + cbn [a2b_base64]. rewrite Hv.
      destruct (Z.eqb_spec ch BASE64_PAD); [contradiction | apply IH].
Qed.

Lemma digit_char v :
  0 <= v < 64 ->
  b64_significant (table_b2a_base64 v) = true /\ table_b2a_base64 v < 0x80.
Proof.
  intros Hv. destruct (Base64.table_inverse v Hv) as [Hinv _]. split.
  - unfold b64_significant. rewrite Hinv. apply orb_true_r.
  - unfold table_b2a_base64. decide_tests; lia.
Qed.

Lemma digit_plain v : 0 <= v < 64 -> plain (table_b2a_base64 v) = true.
Proof.
  intros Hv. destruct (digit_char v Hv) as [H1 H2]. unfold plain.
  rewrite H1. apply Z.ltb_lt. exact H2.
Qed.

(** The encoder writes digits and padding only. *)
Lemma b64encode_plain b :
  wf_bytes b = true -> forallb plain (b64encode b) = true.
Proof.
  unfold wf_bytes.
  induction b as [| x | x y | x y z b IH] using Base64.list_ind3;
    cbn [forallb b64encode]; intros H;
    rewrite ?andb_true_iff, ?Base64.byte_range in H.
  - reflexivity.
  - destruct H as [Hx _]. destruct (Base64.digits_1 x Hx) as [H0 H1].
    rewrite !digit_plain by assumption. reflexivity.
  - destruct H as (Hx & Hy & _). destruct (Base64.digits_1 x Hx) as [H0 _].
    destruct (Base64.digits_2 x y Hx Hy) as [-> H2].
    rewrite !digit_plain by zarith. reflexivity.
  - destruct H as (Hx & Hy & Hz & Hb).
    destruct (Base64.digits_1 x Hx) as [H0 _].
    destruct (Base64.digits_2 x y Hx Hy) as [-> _].
    destruct (Base64.digits_3 y z Hy Hz) as [-> H3].
    rewrite !digit_plain by zarith. rewrite (IH Hb). reflexivity.
Qed.

Lemma b64encode_length b :
  List.length (b64encode b) = (4 * ((List.length b + 2) / 3))%nat.
Proof.
  induction b as [| x | x y | x y z b IH] using Base64.list_ind3;
    try reflexivity.
  cbn [b64encode List.length]. rewrite IH.
  replace (S (S (S (List.length b))) + 2)%nat
    with ((List.length b + 2) + 1 * 3)%nat by lia.
  rewrite Nat.div_add by lia. lia.
Qed.

Lemma plain_split l :
  forallb plain l = true ->
  forallb b64_significant l = true /\ is_ascii l = true.
Proof.
  unfold is_ascii. induction l as [| c l IH]; cbn [forallb]; [auto |].
  unfold plain at 1. rewrite !andb_true_iff. intros [[H1 H2] H3].
  destruct (IH H3). auto.
Qed.

Lemma encode_surrogate s :
  no_surrogates s = false -> utf8_encode s = None.
Proof.
  unfold no_surrogates.
  induction s as [| ch s IH]; cbn [forallb utf8_encode]; [discriminate |].
  destruct (is_surrogate ch) eqn:Hs; cbn [negb andb].
  - intros _. rewrite (Utf8.encode_cp_surrogate ch Hs). reflexivity.
  - intros H. rewrite (IH H). destruct (utf8_encode_cp ch); reflexivity.
Qed.

(** The round trip of a string of scalar values, once more, for the
    proofs below. *)
Lemma round_trip_identity s b :
  wf_str s = true -> utf8_encode s = Some b -> round_trip s = Return s.
Proof.
  intros Hwf Hb. unfold round_trip, string_to_base64.
  rewrite Hb. cbn [of_option rbind]. unfold base64_to_string. cbn [rbind].
  rewrite (Base64.base64_round_trip b (Utf8.encode_bytes s b Hwf Hb)).
  cbn [of_option rbind].
  rewrite (Utf8.utf8_round_trip s b Hwf Hb). reflexivity.
Qed.

(** What [base64_to_string] returns is a string of scalar values, the
    decoding of octets that encode it. *)
Lemma base64_to_string_sound x s :
  base64_to_string x = Return s ->
  wf_str s = true /\ no_surrogates s = true /\ round_trip s = Return s.
Proof.
  unfold base64_to_string.
  destruct (match x with
            | OfBytes raw => Return raw
            | OfJson (JStr s0) => of_option ValueError (ascii_encode s0)
            | OfJson _ => Raise TypeError
            end) as [raw | |]; cbn [rbind]; try discriminate.
  destruct (b64decode raw) as [decoded |] eqn:Hdec; cbn [of_option rbind];
    [| discriminate].
  destruct (utf8_decode decoded) as [s' |] eqn:Hutf; cbn [of_option];
    [| discriminate].
  intros [= <-].
  destruct (Utf8Facts.decode_sound decoded s' (a2b_bytes _ _ _ _ _ Hdec) Hutf)
    as (Hwf & Hns & Henc).
  repeat split; try assumption.
  exact (round_trip_identity s' decoded Hwf Henc).
Qed.


End Base64Facts.

(** ** Running the script *)

Module Run.

Lemma trace_nil {A} S (r : result A) :
  (forall code, r <> Exit code) -> fetch_trace S r [].
Proof. intros H. apply trace_clean; [assumption | constructor]. Qed.

Lemma trace_no_exit {A} S (r : result A) new code :
  fetch_trace S r new -> r <> Exit code.
Proof. intros [r' new' H _ | new' e msg _ _ _]; [apply H | discriminate]. Qed.

Lemma trace_return {A} S (a : A) new :
  fetch_trace S (Return a) new -> Forall (clean S) new.
Proof. inversion 1; assumption. Qed.

Lemma trace_sites {A} S (r : result A) new :
  fetch_trace S r new -> Forall (fun e => S (ex_site e) = true) new.
Proof.
  intros [r' new' _ H | new' e msg H He _].
  - eapply Forall_impl; [| exact H]. intros x [Hx _]. exact Hx.
  - apply Forall_app. split; [| repeat constructor; exact He].
    eapply Forall_impl; [| exact H]. intros x [Hx _]. exact Hx.
Qed.

Lemma trace_app {A B} S (a : A) (r : result B) new1 new2 :
  fetch_trace S (Return a) new1 -> fetch_trace S r new2 ->
  fetch_trace S r (new1 ++ new2).
Proof.
  intros H1%trace_return [r' new' Hr H2 | new' e msg H2 He Hm].
  - apply trace_clean; [assumption | apply Forall_app; split; assumption].
  - rewrite List.app_assoc. apply trace_abort; try assumption.
    apply Forall_app; split; assumption.
Qed.

Lemma trace_raise {A B} S e new :
  fetch_trace S (Raise e : result A) new -> fetch_trace S (Raise e : result B) new.
Proof.
  inversion 1; subst.
  - apply trace_clean; [discriminate | assumption].
  - apply trace_abort; assumption.
Qed.

Lemma clean_weaken (S S' : Site -> bool) e :
  (forall s, S s = true -> S' s = true) -> clean S e -> clean S' e.
Proof. intros H [H1 H2]. split; auto. Qed.

Lemma trace_weaken {A} (S S' : Site -> bool) (r : result A) new :
  (forall s, S s = true -> S' s = true) ->
  fetch_trace S r new -> fetch_trace S' r new.
Proof.
  intros HS [r' new' Hr H | new' e msg H He Hm].
  - apply trace_clean; [assumption |].
    eapply Forall_impl; [| exact H]. intros x. apply clean_weaken, HS.
  - apply trace_abort; auto.
    eapply Forall_impl; [| exact H]. intros x. apply clean_weaken, HS.
Qed.

Lemma fetches_weaken {A} (S S' : Site -> bool) (m : M A) :
  (forall s, S s = true -> S' s = true) -> fetches S m -> fetches S' m.
Proof.
  intros HS Hm env log. destruct (Hm env log) as (r & new & Ht & Hrun).
  exists r, new. split; [eapply trace_weaken; eassumption | assumption].
Qed.

Lemma fetches_ret {A} S (a : A) : fetches S (ret a).
Proof.
  intros env log. exists (Return a), []. split.
  - apply trace_nil. discriminate.
  - intros d out. rewrite List.app_nil_r. reflexivity.
Qed.

Lemma fetches_lift {A} S (r : result A) :
  (forall code, r <> Exit code) -> fetches S (lift r).
Proof.
  intros H env log. exists r, []. split.
  - apply trace_nil, H.
  - intros d out. rewrite List.app_nil_r. reflexivity.
Qed.

Lemma fetches_bind {A B} S (m : M A) (k : A -> M B) :
  fetches S m -> (forall a, fetches S (k a)) -> fetches S (bind m k).
Proof.
  intros Hm Hk env log.
  destruct (Hm env log) as (r & new & Ht & Hrun).
  destruct r as [a | e | code].
  - destruct (Hk a env (log ++ new)) as (r2 & new2 & Ht2 & Hrun2).
    exists r2, (new ++ new2). split.
    + eapply trace_app; eassumption.
    + intros d out. unfold bind. rewrite Hrun, Hrun2, List.app_assoc. reflexivity.
  - exists (Raise e), new. split.
    + eapply trace_raise; eassumption.
    + intros d out. unfold bind. rewrite Hrun. reflexivity.
  - exfalso. eapply trace_no_exit; [eassumption | reflexivity].
Qed.

Lemma of_option_no_exit {A} e (o : option A) code : of_option e o <> Exit code.
Proof. destruct o; discriminate. Qed.

Lemma getitem_no_exit obj key code : getitem obj key <> Exit code.
Proof. destruct obj; try discriminate. apply of_option_no_exit. Qed.

Lemma py_iter_no_exit obj code : py_iter obj <> Exit code.
Proof. destruct obj; discriminate. Qed.

Lemma rbind_no_exit {A B} (r : result A) (k : A -> result B) code :
  (forall c, r <> Exit c) -> (forall a c, k a <> Exit c) -> rbind r k <> Exit code.
Proof.
  intros Hr Hk. destruct r as [a | e | c]; cbn.
  - apply Hk.
  - discriminate.
  - destruct (Hr c eq_refl).
Qed.

Lemma base64_to_string_no_exit b code : base64_to_string b <> Exit code.
Proof.
  unfold base64_to_string. apply rbind_no_exit.
  - intros c. destruct b as [raw | []]; try discriminate.
    apply of_option_no_exit.
  - intros raw c. apply rbind_no_exit.
    + intros c'. apply of_option_no_exit.
    + intros decoded c'. apply of_option_no_exit.
Qed.

(** A checked call of [requests.get]: the shape shared by the three
    functions that fetch.  The first exchange is the call itself. *)
Lemma checked_run {A} (S : Site -> bool) site url headers (k : Response -> M A) :
  S site = true ->
  (forall r, fetches S (k r)) ->
  forall env log,
  exists r tail,
    let first := mkExchange site (mkRequest url headers)
                   (net env log (mkRequest url headers)) in
    fetch_trace S r (first :: tail) /\
    forall d out,
      (response <- requests_get site url headers ;;
       if negb (status_code response =? 200) then
         raise (Exception (error_prefix site
                           ++ str_of_int (status_code response)))
       else k response) env (mkState d out log)
      = (r, mkState d out (log ++ first :: tail)).
Proof.
  intros HS Hk env log.
  set (rq := mkRequest url headers).
  destruct (net env log rq) as [resp |] eqn:Hnet.
  - destruct (status_code resp =? 200) eqn:Hst.
    + destruct (Hk resp env (log ++ [mkExchange site rq (Some resp)]))
        as (r & new & Ht & Hrun).
      exists r, new. split.
      * apply (trace_app S resp r [mkExchange site rq (Some resp)] new); [| assumption].
        apply trace_clean; [discriminate |].
        repeat constructor; [assumption |].
        unfold failure_message; cbn. rewrite Hst. reflexivity.
      * intros d out. unfold bind, requests_get. cbn. fold rq.
        rewrite Hnet, Hst. cbn. rewrite Hrun, <- List.app_assoc. reflexivity.
    + exists (Raise (Exception (error_prefix site ++ str_of_int (status_code resp)))),
        []. split.
      * apply (trace_abort S [] (mkExchange site rq (Some resp)));
          [constructor | assumption |].
        unfold failure_message; cbn. rewrite Hst. reflexivity.
      * intros d out. unfold bind, requests_get. cbn. fold rq.
        rewrite Hnet, Hst. reflexivity.
  - exists (Raise RequestException), []. split.
    + apply trace_clean; [discriminate |].
      repeat constructor. assumption.
    + intros d out. unfold bind, requests_get. cbn. fold rq.
      rewrite Hnet. reflexivity.
Qed.

Lemma fetches_checked {A} (S : Site -> bool) site url headers (k : Response -> M A) :
  S site = true ->
  (forall r, fetches S (k r)) ->
  fetches S
    (response <- requests_get site url headers ;;
     if negb (status_code response =? 200) then
       raise (Exception (error_prefix site ++ str_of_int (status_code response)))
     else k response).
Proof.
  intros HS Hk env log.
  destruct (checked_run S site url headers k HS Hk env log) as (r & tail & H).
  eexists r, _. exact H.
Qed.

Lemma get_pr_data_fetches n o r t :
  fetches (only InGetPrData) (get_pr_data n o r t).
Proof.
  apply (fetches_checked (only InGetPrData) InGetPrData); [reflexivity |].
  intros resp. apply fetches_ret.
Qed.

Lemma get_file_content_fetches url t :
  fetches retrieval_site (get_file_content url t).
Proof.
  apply (fetches_checked retrieval_site InGetFileContent); [reflexivity |].
  intros resp. apply fetches_bind.
  { apply fetches_lift. intros c. apply of_option_no_exit. }
  intros body. apply fetches_bind.
  { apply fetches_lift. intros c. apply getitem_no_exit. }
  intros content. apply fetches_lift. intros c. apply base64_to_string_no_exit.
Qed.

Lemma collect_files_fetches files t acc :
  fetches retrieval_site (collect_files files t acc).
Proof.
  revert acc. induction files as [| file files IH]; intros acc; cbn [collect_files].
  - apply fetches_ret.
  - repeat (apply fetches_bind;
            [apply fetches_lift; intros c; apply getitem_no_exit | intros ?]).
    apply fetches_bind; [apply get_file_content_fetches |].
    intros content. apply IH.
Qed.

Lemma get_pr_file_list_body_fetches t resp :
  fetches retrieval_site
    (body <- lift (response_json resp) ;;
     files <- lift (py_iter body) ;;
     collect_files files t []).
Proof.
  apply fetches_bind.
  { apply fetches_lift. intros c. apply of_option_no_exit. }
  intros body. apply fetches_bind.
  { apply fetches_lift. intros c. apply py_iter_no_exit. }
  intros files. apply collect_files_fetches.
Qed.

Lemma get_pr_file_list_fetches n o r t :
  fetches retrieval_site (get_pr_file_list n o r t).
Proof.
  apply (fetches_checked retrieval_site InGetPrFileList); [reflexivity |].
  intros resp. apply get_pr_file_list_body_fetches.
Qed.

(** The retrieval always starts with the request for the list of files. *)
Lemma get_pr_file_list_run n o r t env log :
  exists res tail,
    let first := mkExchange InGetPrFileList (files_request n o r t)
                   (net env log (files_request n o r t)) in
    fetch_trace retrieval_site res (first :: tail) /\
    forall d out,
      get_pr_file_list n o r t env (mkState d out log)
      = (res, mkState d out (log ++ first :: tail)).
Proof.
  apply (checked_run retrieval_site InGetPrFileList); [reflexivity |].
  intros resp. apply get_pr_file_list_body_fetches.
Qed.

(** In a trace, an exchange that failed is the last one, and its message
    is the one raised. *)
Lemma trace_failure {A} S (r : result A) new before e after msg :
  fetch_trace S r new ->
  new = before ++ e :: after ->
  failure_message e = Some msg ->
  after = [] /\ r = Raise (Exception msg).
Proof.
  intros [r' new' Hr Hclean | new' e' msg' Hclean He' Hm'] Hsplit Hmsg.
  - subst new'. apply Forall_app in Hclean as [_ Hclean].
    apply Forall_inv in Hclean as [_ Hclean]. congruence.
  - destruct after as [| x after'] using rev_ind.
    + apply app_inj_tail in Hsplit as [_ <-]. split; congruence.
    + clear IHafter'. rewrite app_comm_cons, List.app_assoc in Hsplit.
      apply app_inj_tail in Hsplit as [-> _].
      apply Forall_app in Hclean as [_ Hclean].
      apply Forall_inv in Hclean as [_ Hclean]. congruence.
Qed.

(** *** The stages of [main] *)

Lemma main_stages c :
  main c =
  (set_DEBUG (debug c) ;;
   print_script_signature (str_of_int (pr_number c)) (repo_ownr c)
     (repo_name c) (verbose c) ;;
   (if debug c then fold_right (fun s k => print s ;; k) (print NL)
                      (removelast (dump_lines c))
    else ret tt) ;;
   (if max_input_tokens c >? max_tokens c
    then print error_line ;; exit 1 else ret tt) ;;
   (if max_input_tokens c =? max_tokens c then print warn_line else ret tt) ;;
   review_metadata c ;; review_files c).
Proof. reflexivity. Qed.

Lemma for_each_pass {A} (items : list A) env st :
  for_each items (fun _ => ret tt) env st = (Return tt, st).
Proof.
  induction items as [| x items IH]; [reflexivity |].
  cbn [for_each]. unfold bind, ret at 1. exact IH.
Qed.

Lemma set_verbose_same c : set_verbose (verbose c) c = c.
Proof. destruct c; reflexivity. Qed.


(** *** Text that can be shown *)

Lemma printable_app a b :
  no_surrogates (a ++ b) = no_surrogates a && no_surrogates b.
Proof. apply forallb_app. Qed.

Lemma lit_printable s : no_surrogates (lit s) = true.
Proof.
  unfold lit, no_surrogates.
  induction (list_ascii_of_string s) as [| a l IH]; [reflexivity |].
  cbn [map forallb]. rewrite IH, andb_true_r.
  apply negb_true_iff. unfold is_surrogate. apply andb_false_iff. left.
  apply Z.leb_gt. pose proof (N_ascii_bounded a). lia.
Qed.

Lemma str_of_int_printable n : no_surrogates (str_of_int n) = true.
Proof. apply lit_printable. Qed.

Lemma str_of_bool_printable b : no_surrogates (str_of_bool b) = true.
Proof. destruct b; apply lit_printable. Qed.

Lemma underline_printable n :
  forall s, no_surrogates (underline n s) = no_surrogates s.
Proof.
  induction n as [| n IH]; intros s; cbn [underline]; [reflexivity |].
  rewrite IH, printable_app, lit_printable. apply andb_true_r.
Qed.

(** Settles that a text built from literals, numbers, booleans and the
    strings of a configuration can be shown. *)
Ltac printable :=
  unfold NL, TAB;
  repeat (rewrite printable_app || rewrite underline_printable);
  rewrite ?lit_printable, ?str_of_int_printable, ?str_of_bool_printable,
    ?text_ok;
  reflexivity.

Lemma banner_printable c : no_surrogates (banner c) = true.
Proof. unfold banner. printable. Qed.

Lemma dump_lines_printable c : forallb no_surrogates (dump_lines c) = true.
Proof.
  unfold dump_lines. cbn [forallb].
  repeat (apply andb_true_iff; split); try reflexivity; printable.
Qed.

Lemma error_line_printable : no_surrogates error_line = true.
Proof. unfold error_line. printable. Qed.

Lemma warn_line_printable : no_surrogates warn_line = true.
Proof. unfold warn_line. printable. Qed.

Lemma print_ok s env d out log :
  no_surrogates s = true ->
  print s env (mkState d out log) = (Return tt, mkState d (out ++ [s]) log).
Proof. intros H. unfold print. rewrite H. reflexivity. Qed.

Lemma print_run s env d out log :
  print s env (mkState d out log)
  = if no_surrogates s then (Return tt, mkState d (out ++ [s]) log)
    else (Raise UnicodeEncodeError, mkState d out log).
Proof. reflexivity. Qed.

(** [printout] calls [print] exactly when [mode] or [DEBUG] holds. *)
Lemma printout_run s mode env d out log :
  printout s mode env (mkState d out log)
  = if mode || d then print s env (mkState d out log)
    else (Return tt, mkState d out log).
Proof.
  unfold printout, bind, get_DEBUG, ret. cbn [DEBUG].
  destruct (mode || d); reflexivity.
Qed.

Lemma printout_ok s mode env d out log :
  no_surrogates s = true ->
  printout s mode env (mkState d out log)
  = (Return tt, mkState d (out ++ shown mode d s) log).
Proof.
  intros H. rewrite printout_run. unfold shown.
  destruct (mode || d); [apply print_ok, H |].
  rewrite List.app_nil_r. reflexivity.
Qed.

Lemma get_pr_data_run c env d out log :
  get_pr_data (str_of_int (pr_number c)) (repo_ownr c) (repo_name c)
    (gh_token c) env (mkState d out log)
  = (match net env log (pr_request c) with
     | Some r =>
         if status_code r =? 200 then Return r
         else Raise (Exception (error_prefix InGetPrData
                                ++ str_of_int (status_code r)))
     | None => Raise RequestException
     end,
     mkState d out
       (log ++ [mkExchange InGetPrData (pr_request c)
                  (net env log (pr_request c))])).
Proof.
  unfold get_pr_data, bind, requests_get, raise, lift, ret.
  cbn [DEBUG stdout http_log]. fold (pr_request c).
  destruct (net env log (pr_request c)) as [r |]; [| reflexivity].
  destruct (status_code r =? 200); reflexivity.
Qed.

End Run.

Module Stages.
Import Run.
#[local] Opaque lit str_of_int str_of_bool.

Lemma tab_printable s : no_surrogates (TAB ++ s) = no_surrogates s.
Proof. reflexivity. Qed.

Lemma review_metadata_run c env d log b :
  let answer := net env log (pr_request c) in
  fetch_trace (only InGetPrData) (metadata_result (py_repr env) c b d answer)
    (metadata_exchange env c log) /\
  forall out,
    review_metadata (set_verbose b c) env (mkState d out log)
    = (metadata_result (py_repr env) c b d answer,
       mkState d (out ++ printed (metadata_lines (py_repr env) c b d answer))
         (log ++ metadata_exchange env c log)).
Proof.
  unfold review_metadata, metadata_result, metadata_lines, metadata_exchange,
    metadata_outcome.
  cbn [set_verbose review_title review_body verbose pr_number repo_ownr
       repo_name gh_token]. cbv zeta.
  destruct (review_title c || review_body c) eqn:Hany.
  2:{ split.
      - apply trace_nil. discriminate.
      - intros out. rewrite !List.app_nil_r. reflexivity. }
  set (ex := mkExchange InGetPrData (pr_request c) (net env log (pr_request c))).
  assert (Hclean : forall resp, net env log (pr_request c) = Some resp ->
                     (status_code resp =? 200) = true ->
                     Forall (clean (only InGetPrData)) [ex]).
  { intros resp Hn Hs. repeat constructor;
      unfold failure_message, ex; cbn; rewrite ?Hn, ?Hs; reflexivity. }
  destruct (net env log (pr_request c)) as [resp |] eqn:Hnet.
  2:{ split.
      - apply trace_clean; [discriminate |]. repeat constructor.
      - intros out. unfold bind. rewrite get_pr_data_run, Hnet.
        rewrite List.app_nil_r. reflexivity. }
  destruct (status_code resp =? 200) eqn:Hst.
  2:{ split.
      - apply (trace_abort _ [] ex); [constructor | reflexivity |].
        unfold failure_message, ex. cbn. rewrite Hst. reflexivity.
      - intros out. unfold bind. rewrite get_pr_data_run, Hnet, Hst.
        rewrite List.app_nil_r. reflexivity. }
  specialize (Hclean resp eq_refl Hst).
  unfold title_and_body.
  destruct (response_json resp) as [pr_data | e | code] eqn:Hjson; cbn [rbind];
    [| | exfalso; eapply of_option_no_exit; exact Hjson].
  2:{ split; [apply trace_clean; [discriminate | exact Hclean] |].
      intros out. unfold bind, lift.
      rewrite get_pr_data_run, Hnet, Hst, Hjson, List.app_nil_r. reflexivity. }
  destruct (getitem pr_data (lit "title")) as [pr_title | e | code] eqn:Ht;
    cbn [rbind]; [| | exfalso; eapply getitem_no_exit; exact Ht].
  2:{ split; [apply trace_clean; [discriminate | exact Hclean] |].
      intros out. unfold bind, lift.
      rewrite get_pr_data_run, Hnet, Hst, Hjson, Ht, List.app_nil_r.
      reflexivity. }
  destruct (getitem pr_data (lit "body")) as [pr_body | e | code] eqn:Hb;
    cbn [rbind]; [| | exfalso; eapply getitem_no_exit; exact Hb].
  2:{ split; [apply trace_clean; [discriminate | exact Hclean] |].
      intros out. unfold bind, lift.
      rewrite get_pr_data_run, Hnet, Hst, Hjson, Ht, Hb, List.app_nil_r.
      reflexivity. }
  split.
  { apply trace_clean; [| exact Hclean].
    intros code. destruct (forallb no_surrogates _); discriminate. }
  intros out. unfold bind at 1. rewrite get_pr_data_run, Hnet, Hst.
  unfold bind, lift, format, ret. rewrite Hjson, Ht, Hb. cbv beta iota.
  unfold shown.
  destruct (no_surrogates (py_str (py_repr env) pr_title)) eqn:HT;
    destruct (no_surrogates (py_str (py_repr env) pr_body)) eqn:HB;
    destruct (review_title c), (review_body c), (b || d) eqn:Hshow;
    cbn [app forallb printed andb];
    rewrite ?lit_printable, ?tab_printable, ?HT, ?HB; cbn [andb printed];
    repeat (rewrite printout_run, ?Hshow, ?print_run;
            rewrite ?lit_printable, ?tab_printable, ?HT, ?HB;
            cbv beta iota);
    rewrite ?List.app_nil_r, <- ?List.app_assoc; reflexivity.
Qed.

Lemma review_files_run c env d log :
  exists r new,
    fetch_trace retrieval_site r new /\
    (review_diffs c = true -> new <> []) /\
    forall b out,
      review_files (set_verbose b c) env (mkState d out log)
      = (r, mkState d (out ++ files_lines c b d) (log ++ new)).
Proof.
  unfold review_files, files_lines.
  cbn [set_verbose review_diffs verbose pr_number repo_ownr repo_name gh_token].
  destruct (review_diffs c).
  - destruct (get_pr_file_list_run (str_of_int (pr_number c)) (repo_ownr c)
                (repo_name c) (gh_token c) env log)
      as (res & tail & Htrace & Hrun).
    cbv zeta in Htrace, Hrun.
    destruct res as [files | e | code].
    + eexists (Return tt), _. split; [| split].
      * apply trace_clean; [discriminate |].
        eapply trace_return. exact Htrace.
      * discriminate.
      * intros b out. unfold bind.
        rewrite (printout_ok _ _ _ _ _ _ (lit_printable _)), Hrun.
        apply for_each_pass.
    + eexists (Raise e), _. split; [| split].
      * eapply trace_raise. exact Htrace.
      * discriminate.
      * intros b out. unfold bind.
        rewrite (printout_ok _ _ _ _ _ _ (lit_printable _)), Hrun. reflexivity.
    + exfalso. eapply trace_no_exit; [exact Htrace | reflexivity].
  - exists (Return tt), []. split; [| split].
    + apply trace_nil. discriminate.
    + discriminate.
    + intros b out. rewrite !List.app_nil_r. reflexivity.
Qed.


(** The two network stages for every value of [verbose] at once: the
    diff stage, when it is reached, ends the same way for all of them. *)
Lemma fetch_stages_shared c env d log :
  let answer := net env log (pr_request c) in
  exists r2 new2,
    fetch_trace retrieval_site r2 new2 /\
    (review_diffs c = true -> new2 <> []) /\
    forall b out,
      fetch_stages (set_verbose b c) env (mkState d out log)
      = (stage_result (metadata_result (py_repr env) c b d answer) r2,
         mkState d (out ++ stage_lines (py_repr env) c b d answer)
           (log ++ stage_exchanges
                     (metadata_result (py_repr env) c b d answer)
                     (metadata_exchange env c log) new2)).
Proof.
  cbv zeta.
  destruct (review_files_run c env d (log ++ metadata_exchange env c log))
    as (r2 & new2 & Htrace2 & Hnonempty & Hrun2).
  exists r2, new2. split; [exact Htrace2 | split; [exact Hnonempty |]].
  intros b out. unfold fetch_stages, bind.
  destruct (review_metadata_run c env d log b) as [_ Hrun1].
  cbv zeta in Hrun1. rewrite Hrun1.
  unfold stage_result, stage_lines, stage_exchanges.
  destruct (metadata_result (py_repr env) c b d (net env log (pr_request c)))
    as [[] | e | code].
  - rewrite Hrun2, <- !List.app_assoc. reflexivity.
  - rewrite !List.app_nil_r. reflexivity.
  - rewrite !List.app_nil_r. reflexivity.
Qed.

Lemma metadata_result_skipped repr c mode d answer :
  review_title c || review_body c = false ->
  metadata_result repr c mode d answer = Return tt.
Proof.
  intros H. unfold metadata_result, metadata_lines, metadata_outcome.
  rewrite H. reflexivity.
Qed.

Lemma retrieval_not_metadata (r : result unit) new :
  fetch_trace retrieval_site r new -> metadata_fetches new = [].
Proof.
  intros H%trace_sites. induction H as [| e new He _ IH]; [reflexivity |].
  unfold metadata_fetches in *. cbn [filter]. unfold is_metadata_fetch.
  destruct (ex_site e); [discriminate | exact IH | exact IH].
Qed.

Lemma metadata_exchange_filter env c log :
  metadata_fetches (metadata_exchange env c log) = metadata_exchange env c log.
Proof.
  unfold metadata_exchange. destruct (review_title c || review_body c);
    reflexivity.
Qed.

(** What the exchanges of the two stages look like. *)
Lemma stage_exchanges_trace c env d log b r2 new2 :
  let m := metadata_result (py_repr env) c b d (net env log (pr_request c)) in
  let new := stage_exchanges m (metadata_exchange env c log) new2 in
  fetch_trace retrieval_site r2 new2 ->
  (review_diffs c = true -> new2 <> []) ->
  fetch_trace any_site (stage_result m r2) new /\
  metadata_fetches new = metadata_exchange env c log /\
  (exists tail, new = metadata_exchange env c log ++ tail) /\
  (review_title c || review_body c || review_diffs c = true -> new <> []).
Proof.
  cbv zeta. intros Htrace2 Hnonempty.
  destruct (review_metadata_run c env d log b) as [Hmeta _].
  cbv zeta in Hmeta.
  assert (Hsome : review_title c || review_body c = true ->
                  metadata_exchange env c log <> []).
  { unfold metadata_exchange. intros ->. discriminate. }
  unfold stage_result, stage_exchanges.
  destruct (metadata_result (py_repr env) c b d (net env log (pr_request c)))
    as [[] | e | code] eqn:Hm.
  - split; [| split; [| split]].
    + eapply trace_app.
      * eapply trace_weaken; [| exact Hmeta]. reflexivity.
      * eapply trace_weaken; [| exact Htrace2]. reflexivity.
    + unfold metadata_fetches. rewrite filter_app.
      fold (metadata_fetches (metadata_exchange env c log)).
      fold (metadata_fetches new2).
      rewrite metadata_exchange_filter, (retrieval_not_metadata r2 new2 Htrace2).
      apply List.app_nil_r.
    + exists new2. reflexivity.
    + intros Hon Hnil. apply app_eq_nil in Hnil as [Hnil1 Hnil2].
      destruct (review_title c || review_body c) eqn:Hany.
      * apply Hsome; [reflexivity | exact Hnil1].
      * cbn [orb] in Hon. apply Hnonempty; assumption.
  - rewrite List.app_nil_r. split; [| split; [| split]].
    + eapply trace_weaken; [| exact Hmeta]. reflexivity.
    + apply metadata_exchange_filter.
    + exists []. symmetry. apply List.app_nil_r.
    + intros _. apply Hsome.
      destruct (review_title c || review_body c) eqn:Hany; [reflexivity |].
      rewrite (metadata_result_skipped _ _ _ _ _ Hany) in Hm. discriminate.
  - exfalso. eapply trace_no_exit; [exact Hmeta | reflexivity].
Qed.

(** From the start of [main] to the check of the limits. *)
Lemma main_run env c :
  run_main env c =
  if max_input_tokens c >? max_tokens c then
    (Exit 1, mkState (debug c) (prelude c ++ [error_line]) [])
  else
    fetch_stages c env
      (mkState (debug c)
         (prelude c
          ++ (if max_input_tokens c =? max_tokens c then [warn_line] else []))
         []).
Proof.
  unfold run_main. rewrite main_stages. unfold initial_state, prelude.
  unfold bind at 1. unfold set_DEBUG at 1. cbn [DEBUG stdout http_log].
  unfold bind at 1. unfold print_script_signature. fold (banner c).
  rewrite (printout_ok _ _ _ _ _ _ (banner_printable c)). cbn [app].
  unfold bind at 1.
  assert (Hdump : forall out,
            (if debug c
             then fold_right (fun s k => print s ;; k) (print NL)
                    (removelast (dump_lines c))
             else ret tt) env (mkState (debug c) out [])
            = (Return tt,
               mkState (debug c)
                 (out ++ (if debug c then dump_lines c else [])) [])).
  { intros out. destruct (debug c).
    - pose proof (dump_lines_printable c) as Hall.
      unfold dump_lines in *. cbn [forallb] in Hall.
      repeat (apply andb_true_iff in Hall as [? Hall]).
      unfold removelast, fold_right, bind.
      repeat (rewrite print_ok by assumption).
      rewrite ?print_ok by reflexivity.
      rewrite <- !List.app_assoc. reflexivity.
    - rewrite List.app_nil_r. reflexivity. }
  rewrite Hdump. unfold bind at 1.
  destruct (max_input_tokens c >? max_tokens c).
  - unfold bind, exit, lift. rewrite (print_ok _ _ _ _ _ error_line_printable).
    reflexivity.
  - unfold ret at 1. unfold bind at 1.
    destruct (max_input_tokens c =? max_tokens c).
    + rewrite (print_ok _ _ _ _ _ warn_line_printable).
      rewrite <- !List.app_assoc. reflexivity.
    + unfold ret at 1. rewrite List.app_nil_r. reflexivity.
Qed.

(** The whole run of [main] for every value of [verbose] at once. *)
Lemma main_shared env c :
  let answer := net env [] (pr_request c) in
  exists r2 new2,
    fetch_trace retrieval_site r2 new2 /\
    (review_diffs c = true -> new2 <> []) /\
    forall b,
      run_main env (set_verbose b c) =
      if max_input_tokens c >? max_tokens c then
        (Exit 1,
         mkState (debug c) (prelude (set_verbose b c) ++ [error_line]) [])
      else
        (stage_result (metadata_result (py_repr env) c b (debug c) answer) r2,
         mkState (debug c)
           (prelude (set_verbose b c)
            ++ (if max_input_tokens c =? max_tokens c
                then [warn_line] else [])
            ++ stage_lines (py_repr env) c b (debug c) answer)
           (stage_exchanges
              (metadata_result (py_repr env) c b (debug c) answer)
              (metadata_exchange env c []) new2)).
Proof.
  cbv zeta.
  destruct (fetch_stages_shared c env (debug c) [])
    as (r2 & new2 & Htrace2 & Hnonempty & Hrun).
  exists r2, new2. split; [exact Htrace2 | split; [exact Hnonempty |]].
  intros b. rewrite main_run.
  cbn [set_verbose max_input_tokens max_tokens debug].
  destruct (max_input_tokens c >? max_tokens c); [reflexivity |].
  rewrite Hrun, <- List.app_assoc. reflexivity.
Qed.

(** The whole run of [main] for one value of [verbose]. *)
Lemma main_full env c b :
  let answer := net env [] (pr_request c) in
  exists r new,
    fetch_trace any_site r new /\
    metadata_fetches new = metadata_exchange env c [] /\
    (exists tail, new = metadata_exchange env c [] ++ tail) /\
    (review_title c || review_body c || review_diffs c = true -> new <> []) /\
    run_main env (set_verbose b c) =
    if max_input_tokens c >? max_tokens c then
      (Exit 1,
       mkState (debug c) (prelude (set_verbose b c) ++ [error_line]) [])
    else
      (r, mkState (debug c)
            (prelude (set_verbose b c)
             ++ (if max_input_tokens c =? max_tokens c
                 then [warn_line] else [])
             ++ stage_lines (py_repr env) c b (debug c) answer)
            new).
Proof.
  cbv zeta.
  destruct (main_shared env c) as (r2 & new2 & Htrace2 & Hnonempty & Hrun).
  destruct (stage_exchanges_trace c env (debug c) [] b r2 new2 Htrace2 Hnonempty)
    as (Htrace & Hcount & Hhead & Hne).
  eexists _, _. repeat split; [exact Htrace | exact Hcount | exact Hhead
                              | exact Hne | apply Hrun].
Qed.

End Stages.

(** ** The retrieval of the changed files *)

Module Retrieval.
Import Run.
#[local] Opaque lit str_of_int.

Lemma get_file_content_ok env t url body content text d out log :
  net env log (content_request url t) = Some (mkResponse 200 (Some body)) ->
  getitem body (lit "content") = Return content ->
  base64_to_string (OfJson content) = Return text ->
  get_file_content url t env (mkState d out log)
  = (Return text,
     mkState d out
       (log ++ [mkExchange InGetFileContent (content_request url t)
                  (Some (mkResponse 200 (Some body)))])).
Proof.
  intros Hnet Hget Hdec.
  unfold get_file_content, bind, requests_get, lift.
  cbn [DEBUG stdout http_log]. fold (content_request url t).
  rewrite Hnet. cbn [status_code Z.eqb Pos.eqb negb].
  unfold response_json. cbn [resp_json of_option].
  rewrite Hget, Hdec. reflexivity.
Qed.


Lemma get_file_content_sound env t url st text st' :
  get_file_content url t env st = (Return text, st') ->
  exists resp body content,
    net env (http_log st) (content_request url t) = Some resp /\
    status_code resp = 200 /\
    resp_json resp = Some body /\
    getitem body (lit "content") = Return content /\
    base64_to_string (OfJson content) = Return text.
Proof.
  unfold get_file_content, bind, requests_get, lift, raise.
  fold (content_request url t).
  destruct (net env (http_log st) (content_request url t)) as [resp |] eqn:Hnet;
    [| discriminate].
  destruct (Z.eqb_spec (status_code resp) 200) as [Hst |]; [| discriminate].
  cbn [negb]. unfold response_json.
  destruct (resp_json resp) as [body |] eqn:Hbody; [| discriminate].
  cbn [of_option].
  destruct (getitem body (lit "content")) as [content | e | code] eqn:Hget;
    try discriminate.
  intros [= Hdec _]. exists resp, body, content. auto.
Qed.

Lemma collect_files_sound env t files :
  forall acc st fl st',
    collect_files files t acc env st = (Return fl, st') ->
    exists tuples,
      fl = acc ++ tuples /\ Forall2 (entry_fetched env t) files tuples.
Proof.
  induction files as [| file files IH]; intros acc st fl st'; cbn [collect_files].
  - intros [= <- _]. exists []. split; [symmetry; apply List.app_nil_r | constructor].
  - unfold bind, lift.
    destruct (getitem file (lit "filename")) as [filename | |] eqn:Hf;
      try discriminate.
    destruct (getitem file (lit "patch")) as [patch | |] eqn:Hp;
      try discriminate.
    destruct (getitem file (lit "contents_url")) as [url | |] eqn:Hu;
      try discriminate.
    destruct (get_file_content url t env st) as [[text | e | code] st1] eqn:Hc;
      try discriminate.
    apply get_file_content_sound in Hc
      as (resp & body & content & Hnet & Hst & Hbody & Hget & Hdec).
    intros (tuples & -> & Hrest)%IH.
    exists ((filename, patch, text) :: tuples). split.
    + rewrite <- List.app_assoc. reflexivity.
    + constructor; [| exact Hrest].
      exists url, (http_log st), resp, body, content. cbn [fst snd].
      repeat split; assumption.
Qed.

(** A list that is returned has one tuple for each entry of the answer
    to the request for the list of files, in the same order. *)
Lemma get_pr_file_list_sound n o r t env st fl st' :
  get_pr_file_list n o r t env st = (Return fl, st') ->
  exists resp body files,
    net env (http_log st) (files_request n o r t) = Some resp /\
    status_code resp = 200 /\
    resp_json resp = Some body /\
    py_iter body = Return files /\
    Forall2 (entry_fetched env t) files fl.
Proof.
  unfold get_pr_file_list, bind, requests_get, lift, raise.
  fold (files_request n o r t).
  destruct (net env (http_log st) (files_request n o r t)) as [resp |] eqn:Hnet;
    [| discriminate].
  destruct (Z.eqb_spec (status_code resp) 200) as [Hst |]; [| discriminate].
  cbn [negb]. unfold response_json.
  destruct (resp_json resp) as [body |] eqn:Hbody; [| discriminate].
  cbn [of_option].
  destruct (py_iter body) as [files | e | code] eqn:Hiter; try discriminate.
  intros (tuples & -> & Hall)%collect_files_sound.
  exists resp, body, files. repeat split; try reflexivity; assumption.
Qed.

End Retrieval.

(** * The claims *)

Import Run Stages.







(** C3.  In a retrieval, an exchange whose response has a status code
    other than 200 is the last exchange of the retrieval: no request
    follows it.  The retrieval then ends with the exception whose message
    carries that status code, so no list is returned, and nothing has
    been printed. *)
Theorem retrieval_aborts_on_first_failure
    n o r t env st before e after resp :
  http_log (snd (get_pr_file_list n o r t env st))
  = http_log st ++ before ++ e :: after ->
  ex_answer e = Some resp ->
  status_code resp <> 200 ->
  fst (get_pr_file_list n o r t env st)
  = Raise (Exception (error_prefix (ex_site e)
                      ++ str_of_int (status_code resp))) /\
  after = [] /\
  stdout (snd (get_pr_file_list n o r t env st)) = stdout st.
Proof.
  intros Hlog Hanswer Hstatus. destruct st as [d out log].
  destruct (get_pr_file_list_fetches n o r t env log)
    as (res & new & Htrace & Hrun).
  rewrite Hrun in *. cbn [fst snd http_log stdout] in *.
  apply app_inv_head in Hlog.
  assert (Hmsg : failure_message e
                 = Some (error_prefix (ex_site e)
                         ++ str_of_int (status_code resp))).
  { unfold failure_message. rewrite Hanswer.
    destruct (Z.eqb_spec (status_code resp) 200); [contradiction | reflexivity]. }
  destruct (trace_failure _ _ _ _ _ _ _ Htrace Hlog Hmsg) as [-> ->].
  repeat split.
Qed.

Lemma retrieval_aborts_on_first_failure_witness :
  let run := get_pr_file_list (lit "7") (lit "octo") (lit "demo")
               (lit "secret") Mock.broken_content initial_state in
  let listing :=
    mkExchange InGetPrFileList
      (files_request (lit "7") (lit "octo") (lit "demo") (lit "secret"))
      (Mock.json_response 200 (JList [Mock.a_py; Mock.b_py])) in
  let failed :=
    mkExchange InGetFileContent
      (content_request (JStr Mock.a_py_url) (lit "secret")) Mock.not_found in
  http_log (snd run) = [listing; failed] /\
  fst run = Raise (Exception (lit "Error fetching file contents: 404")).
Proof.
  split; [reflexivity |].
  apply (retrieval_aborts_on_first_failure
           (lit "7") (lit "octo") (lit "demo") (lit "secret")
           Mock.broken_content initial_state
           [mkExchange InGetPrFileList
              (files_request (lit "7") (lit "octo") (lit "demo") (lit "secret"))
              (Mock.json_response 200 (JList [Mock.a_py; Mock.b_py]))]
           (mkExchange InGetFileContent
              (content_request (JStr Mock.a_py_url) (lit "secret"))
              Mock.not_found)
           []
           (mkResponse 404
              (Some (JDict [(lit "message", JStr (lit "Not Found"))])))).
  - reflexivity.
  - reflexivity.
  - discriminate.
Defined.

(** C4.  [max_files] is never applied.  If the retrieval of a run
    returns a list, then the run with any other value of [max_files]
    behaves the same, its retrieval returns that same list, and the list
    has one tuple per entry of the answer to the request for the list of
    files, whatever [max_files] is. *)
Theorem max_files_is_never_applied env c m st fl st' :
  get_pr_file_list (str_of_int (pr_number c)) (repo_ownr c) (repo_name c)
    (gh_token c) env st = (Return fl, st') ->
  main (set_max_files m c) = main c /\
  get_pr_file_list (str_of_int (pr_number (set_max_files m c)))
    (repo_ownr (set_max_files m c)) (repo_name (set_max_files m c))
    (gh_token (set_max_files m c)) env st = (Return fl, st') /\
  exists resp body files,
    net env (http_log st)
      (files_request (str_of_int (pr_number c)) (repo_ownr c) (repo_name c)
         (gh_token c)) = Some resp /\
    resp_json resp = Some body /\
    py_iter body = Return files /\
    List.length fl = List.length files.
Proof.
  intros Hrun. split; [reflexivity | split; [exact Hrun |]].
  destruct (Retrieval.get_pr_file_list_sound _ _ _ _ _ _ _ _ Hrun)
    as (resp & body & files & Hnet & _ & Hbody & Hiter & Hall).
  exists resp, body, files. repeat split; try assumption.
  symmetry. eapply Forall2_length. exact Hall.
Qed.

Lemma max_files_is_never_applied_witness :
  let c := Mock.config in
  main (set_max_files 0 c) = main c /\
  fst (get_pr_file_list (str_of_int (pr_number (set_max_files 0 c)))
         (repo_ownr (set_max_files 0 c)) (repo_name (set_max_files 0 c))
         (gh_token (set_max_files 0 c)) Mock.healthy initial_state)
  = Return [(JStr (lit "a.py"), JStr (lit "@@ ..."), lit "print(1)")].
Proof.
  destruct (max_files_is_never_applied Mock.healthy Mock.config 0
              initial_state
              [(JStr (lit "a.py"), JStr (lit "@@ ..."), lit "print(1)")]
              (snd (get_pr_file_list (lit "7") (lit "octo") (lit "demo")
                      (lit "secret") Mock.healthy initial_state))
              eq_refl) as (Hmain & Hsame & _).
  split; [exact Hmain |]. rewrite Hsame. reflexivity.
Defined.












(** C9, as the specification states it, fails: a Python string may hold a
    lone surrogate, and [string_to_base64] then raises
    [UnicodeEncodeError] instead of returning bytes. *)
Lemma round_trip_fails_on_lone_surrogate :
  wf_str [0xD800] = true /\
  string_to_base64 [0xD800] = Raise UnicodeEncodeError /\
  round_trip [0xD800] <> Return [0xD800].
Proof. repeat split. discriminate. Qed.

(** C9, amended.  For every string [s] without surrogate code points,
    [base64_to_string(string_to_base64(s))] returns [s]. *)
Theorem round_trip_of_scalar_values s :
  wf_str s = true ->
  no_surrogates s = true ->
  round_trip s = Return s.
Proof.
  intros Hwf Hscalar. unfold round_trip, string_to_base64.
  destruct (Utf8.encode_defined s Hscalar) as [b Hb].
  rewrite Hb. cbn [of_option rbind]. unfold base64_to_string.
  cbn [rbind].
  rewrite (Base64.base64_round_trip b (Utf8.encode_bytes s b Hwf Hb)).
  cbn [of_option rbind].
  rewrite (Utf8.utf8_round_trip s b Hwf Hb). reflexivity.
Qed.

Lemma round_trip_of_scalar_values_witness :
  round_trip [0x20AC; 0x1F600; 0xE9; 0x41] = Return [0x20AC; 0x1F600; 0xE9; 0x41].
Proof.
  apply (round_trip_of_scalar_values [0x20AC; 0x1F600; 0xE9; 0x41]);
    reflexivity.
Defined.




(** * Further properties of [main] *)

Module MainFacts.
Import Run Stages.
#[local] Opaque lit str_of_int str_of_bool.





Lemma metadata_lines_quiet repr c answer :
  metadata_lines repr c false false answer = [].
Proof.
  unfold metadata_lines, shown. cbn [orb app].
  destruct (review_title c || review_body c); [| reflexivity].
  destruct answer as [r |]; [| reflexivity].
  destruct (status_code r =? 200); [| reflexivity].
  destruct (title_and_body r) as [[t b] | |]; try reflexivity.
  destruct (review_title c), (review_body c); reflexivity.
Qed.



(** *** Exchanges that all satisfy a predicate *)

Section Satisfy.
Variable P : Exchange -> Prop.

Lemma sat_pure {A} (m : M A) :
  (forall env st, http_log (snd (m env st)) = http_log st) ->
  exchanges_satisfy P m.
Proof.
  intros H env st. exists []. rewrite H, List.app_nil_r. split; constructor.
Qed.

Lemma sat_bind {A B} (m : M A) (k : A -> M B) :
  exchanges_satisfy P m -> (forall a, exchanges_satisfy P (k a)) ->
  exchanges_satisfy P (bind m k).
Proof.
  intros Hm Hk env st. destruct (Hm env st) as (new1 & Hlog1 & Hall1).
  unfold bind. destruct (m env st) as [[a | e | code] st1]; cbn [snd] in *.
  - destruct (Hk a env st1) as (new2 & Hlog2 & Hall2).
    exists (new1 ++ new2). split.
    + rewrite Hlog2, Hlog1, List.app_assoc. reflexivity.
    + apply Forall_app. split; assumption.
  - exists new1. split; assumption.
  - exists new1. split; assumption.
Qed.

Lemma sat_requests_get site url headers :
  (forall answer, P (mkExchange site (mkRequest url headers) answer)) ->
  exchanges_satisfy P (requests_get site url headers).
Proof.
  intros H env st.
  exists [mkExchange site (mkRequest url headers)
            (net env (http_log st) (mkRequest url headers))].
  split; [| repeat constructor; apply H].
  unfold requests_get.
  destruct (net env (http_log st) (mkRequest url headers)); reflexivity.
Qed.

Lemma sat_print s : exchanges_satisfy P (print s).
Proof.
  apply sat_pure. intros env [d out log]. rewrite print_run.
  destruct (no_surrogates s); reflexivity.
Qed.

Lemma sat_printout s mode : exchanges_satisfy P (printout s mode).
Proof.
  apply sat_pure. intros env [d out log]. rewrite printout_run, print_run.
  destruct (mode || d), (no_surrogates s); reflexivity.
Qed.

Lemma sat_for_each {A} (items : list A) :
  exchanges_satisfy P (for_each items (fun _ => ret tt)).
Proof. apply sat_pure. intros env st. rewrite for_each_pass. reflexivity. Qed.

End Satisfy.

(** One step of a proof that a computation keeps a predicate on its
    exchanges. *)
Ltac sat_step :=
  lazymatch goal with
  | |- exchanges_satisfy _ (bind _ _) => apply sat_bind; [| intros ?]
  | |- exchanges_satisfy _ (printout _ _) => apply sat_printout
  | |- exchanges_satisfy _ (print _) => apply sat_print
  | |- exchanges_satisfy _ (for_each _ _) => apply sat_for_each
  | |- exchanges_satisfy _ (requests_get _ _ _) =>
      apply sat_requests_get; intros ?; reflexivity
  | |- exchanges_satisfy _ (if ?b then _ else _) => destruct b
  | |- exchanges_satisfy _ _ => apply sat_pure; intros ? ?; reflexivity
  end.

Lemma get_pr_data_authenticated n o r t :
  exchanges_satisfy (authenticated t) (get_pr_data n o r t).
Proof. unfold get_pr_data. repeat sat_step. Qed.

Lemma get_file_content_authenticated url t :
  exchanges_satisfy (authenticated t) (get_file_content url t).
Proof. unfold get_file_content. repeat sat_step. Qed.

Lemma collect_files_authenticated files t :
  forall acc, exchanges_satisfy (authenticated t) (collect_files files t acc).
Proof.
  induction files as [| file files IH]; intros acc; cbn [collect_files].
  - repeat sat_step.
  - sat_step; [sat_step |]. sat_step; [sat_step |]. sat_step; [sat_step |].
    sat_step; [apply get_file_content_authenticated | apply IH].
Qed.

Lemma get_pr_file_list_authenticated n o r t :
  exchanges_satisfy (authenticated t) (get_pr_file_list n o r t).
Proof.
  unfold get_pr_file_list.
  sat_step; [sat_step |]. sat_step; [sat_step |].
  sat_step; [sat_step |]. sat_step; [sat_step |].
  apply collect_files_authenticated.
Qed.

Lemma main_authenticated c :
  exchanges_satisfy (authenticated (gh_token c)) (main c).
Proof.
  rewrite main_stages.
  sat_step; [sat_step |]. sat_step; [unfold print_script_signature; sat_step |].
  sat_step.
  { destruct (debug c); [| sat_step].
    unfold dump_lines, removelast, fold_right. repeat sat_step. }
  sat_step; [repeat sat_step |]. sat_step; [repeat sat_step |].
  sat_step.
  - unfold review_metadata. destruct (review_title c || review_body c);
      [| sat_step].
    sat_step; [apply get_pr_data_authenticated |]. repeat sat_step.
  - unfold review_files. destruct (review_diffs c); [| sat_step].
    sat_step; [sat_step |].
    sat_step; [apply get_pr_file_list_authenticated | sat_step].
Qed.

End MainFacts.

Import MainFacts.


(** X2.  Without [verbose] and without [debug], [main] prints nothing but
    the message about the limits: the error line, the warning line, or
    nothing at all, whatever the network answers. *)
Theorem quiet_run_prints_only_limit_messages env c :
  verbose c = false ->
  debug c = false ->
  stdout (snd (run_main env c))
  = if max_input_tokens c >? max_tokens c then [error_line]
    else if max_input_tokens c =? max_tokens c then [warn_line]
    else [].
Proof.
  intros Hverbose Hdebug.
  destruct (main_full env c (verbose c)) as (r & new & _ & _ & _ & _ & Hrun).
  rewrite set_verbose_same in Hrun.
  rewrite Hrun. unfold prelude, stage_lines, files_lines, shown.
  rewrite Hverbose, Hdebug, metadata_lines_quiet. cbn [orb app printed].
  destruct (max_input_tokens c >? max_tokens c); [reflexivity |].
  cbn [snd stdout].
  assert (Hnone : match metadata_result (py_repr env) c false false
                          (net env [] (pr_request c)) with
                  | Return _ => if review_diffs c then @nil str else []
                  | _ => []
                  end = []).
  { destruct (metadata_result (py_repr env) c false false
                (net env [] (pr_request c)));
      destruct (review_diffs c); reflexivity. }
  rewrite Hnone, List.app_nil_r. reflexivity.
Qed.

Lemma quiet_run_prints_only_limit_messages_witness :
  stdout (snd (run_main Mock.healthy Mock.config)) = [warn_line].
Proof.
  apply (quiet_run_prints_only_limit_messages Mock.healthy Mock.config);
    reflexivity.
Defined.



(** X4.  Every request of a run of [main], to the pull-request resource,
    to the list of files or to a contents URL named by the remote side,
    carries the two headers [Authorization: token <gh_token>] and
    [Accept: application/vnd.github+json]. *)
Theorem every_request_is_authenticated env c e :
  In e (http_log (snd (run_main env c))) ->
  req_headers (ex_request e)
  = [(lit "Authorization", lit "token " ++ gh_token c);
     (lit "Accept", lit "application/vnd.github+json")].
Proof.
  intros Hin.
  destruct (main_authenticated c env initial_state) as (new & Hlog & Hall).
  unfold run_main in Hin. rewrite Hlog in Hin. cbn [initial_state http_log app] in Hin.
  rewrite Forall_forall in Hall. exact (Hall e Hin).
Qed.

Lemma every_request_is_authenticated_witness :
  req_headers
    (content_request (JStr Mock.a_py_url) (lit "secret"))
  = [(lit "Authorization", lit "token secret");
     (lit "Accept", lit "application/vnd.github+json")].
Proof.
  apply (every_request_is_authenticated Mock.healthy Mock.config
           (mkExchange InGetFileContent
              (content_request (JStr Mock.a_py_url) (lit "secret"))
              (Mock.json_response 200 (Mock.content_of (lit "cHJpbnQoMSk="))))).
  right. right. left. reflexivity.
Defined.



(** X6.  The two limits act through their order only: two runs whose
    limits compare the same way, and that are otherwise alike, are the
    same run.  No request and no printed line depends on their values. *)
Theorem limits_matter_only_by_order env c tokens input_tokens :
  (input_tokens ?= tokens) = (max_input_tokens c ?= max_tokens c) ->
  run_main env (set_limits tokens input_tokens c) = run_main env c.
Proof.
  intros Horder. rewrite !main_run.
  cbn [set_limits max_input_tokens max_tokens debug].
  change (prelude (set_limits tokens input_tokens c)) with (prelude c).
  change (fetch_stages (set_limits tokens input_tokens c))
    with (fetch_stages c).
  unfold Z.gtb. rewrite Horder.
  replace (input_tokens =? tokens) with (max_input_tokens c =? max_tokens c);
    [reflexivity |].
  destruct (Z.eqb_spec input_tokens tokens) as [-> | Hne];
    destruct (Z.eqb_spec (max_input_tokens c) (max_tokens c)) as [Heq | Hne'];
    try reflexivity.
  - rewrite Z.compare_refl in Horder. symmetry in Horder.
    apply Z.compare_eq in Horder. contradiction.
  - rewrite Heq, Z.compare_refl in Horder.
    apply Z.compare_eq in Horder. contradiction.
Qed.

Lemma limits_matter_only_by_order_witness :
  run_main Mock.healthy (set_limits 8 5 (set_limits 4096 100 Mock.config))
  = run_main Mock.healthy (set_limits 4096 100 Mock.config).
Proof.
  apply (limits_matter_only_by_order Mock.healthy
           (set_limits 4096 100 Mock.config) 8 5).
  reflexivity.
Defined.


(** X8.  In a whole run of [main], an exchange whose response has a
    status code other than 200 is the last one: a failed metadata fetch
    keeps [main] from requesting the list of files, and the run ends with
    the exception that carries the status code. *)
Theorem main_stops_at_first_failed_fetch env c before e after resp :
  http_log (snd (run_main env c)) = before ++ e :: after ->
  ex_answer e = Some resp ->
  status_code resp <> 200 ->
  after = [] /\
  fst (run_main env c)
  = Raise (Exception (error_prefix (ex_site e)
                      ++ str_of_int (status_code resp))).
Proof.
  intros Hlog Hanswer Hstatus.
  destruct (main_full env c (verbose c))
    as (r & new & Htrace & _ & _ & _ & Hrun).
  rewrite set_verbose_same in Hrun.
  rewrite Hrun in *.
  destruct (max_input_tokens c >? max_tokens c); cbn [fst snd http_log] in *.
  { destruct before; discriminate. }
  assert (Hmsg : failure_message e
                 = Some (error_prefix (ex_site e)
                         ++ str_of_int (status_code resp))).
  { unfold failure_message. rewrite Hanswer.
    destruct (Z.eqb_spec (status_code resp) 200); [contradiction | reflexivity]. }
  exact (trace_failure _ _ _ _ _ _ _ Htrace Hlog Hmsg).
Qed.

Lemma main_stops_at_first_failed_fetch_witness :
  http_log (snd (run_main MockMore.list_missing Mock.config))
  = [mkExchange InGetPrData (pr_request Mock.config)
       (Mock.json_response 200 Mock.metadata);
     mkExchange InGetPrFileList
       (files_request (lit "7") (lit "octo") (lit "demo") (lit "secret"))
       Mock.not_found] /\
  fst (run_main MockMore.list_missing Mock.config)
  = Raise (Exception (lit "Error fetching pull request: 404")).
Proof.
  split; [reflexivity |].
  apply (main_stops_at_first_failed_fetch MockMore.list_missing Mock.config
           [mkExchange InGetPrData (pr_request Mock.config)
              (Mock.json_response 200 Mock.metadata)]
           (mkExchange InGetPrFileList
              (files_request (lit "7") (lit "octo") (lit "demo") (lit "secret"))
              Mock.not_found)
           []
           (mkResponse 404
              (Some (JDict [(lit "message", JStr (lit "Not Found"))])))).
  - reflexivity.
  - reflexivity.
  - discriminate.
Defined.



(** * Further properties of the retrieval *)

Module RetrievalFacts.
Import Run.
#[local] Opaque lit str_of_int.

(** The exchanges of a loop over entries that are all served. *)
Lemma collect_files_exchanges env t entries expected :
  Forall2 (entry_yields env t) entries expected ->
  forall acc d out log, exists tail,
    collect_files entries t acc env (mkState d out log)
    = (Return (acc ++ expected), mkState d out (log ++ tail)) /\
    Forall2 (entry_exchange t) entries tail.
Proof.
  induction 1 as [| entry tuple entries expected Hentry _ IH];
    intros acc d out log; cbn [collect_files].
  - exists []. rewrite !List.app_nil_r. split; [reflexivity | constructor].
  - destruct Hentry as (url & body & content & Hf & Hp & Hu & Hnet & Hc & Hdec).
    destruct tuple as [[filename patch] text]. cbn [fst snd] in *.
    set (x := mkExchange InGetFileContent (content_request url t)
                (Some (mkResponse 200 (Some body)))).
    destruct (IH (acc ++ [(filename, patch, text)]) d out (log ++ [x]))
      as (tail & Hrun & Hall).
    exists (x :: tail). split.
    + unfold bind, lift. rewrite Hf, Hp, Hu.
      rewrite (Retrieval.get_file_content_ok env t url body content text
                 d out log (Hnet log) Hc Hdec).
      fold x. rewrite Hrun, <- !List.app_assoc. reflexivity.
    + constructor; [| exact Hall].
      repeat split; try assumption. exists (mkResponse 200 (Some body)).
      split; reflexivity.
Qed.

(** The loop stops at the first entry that lacks a field. *)
Lemma collect_files_incomplete env t bad rest e acc st :
  entry_fields bad = Raise e ->
  collect_files (bad :: rest) t acc env st = (Raise e, st).
Proof.
  unfold entry_fields. cbn [collect_files]. unfold bind, lift.
  destruct (getitem bad (lit "filename")) as [f | e1 | c1]; cbn [rbind];
    [| intros [= <-]; reflexivity | discriminate].
  destruct (getitem bad (lit "patch")) as [p | e2 | c2]; cbn [rbind];
    [| intros [= <-]; reflexivity | discriminate].
  destruct (getitem bad (lit "contents_url")) as [u | e3 | c3]; cbn [rbind];
    [discriminate | intros [= <-]; reflexivity | discriminate].
Qed.

Lemma collect_files_stops env t served expected bad rest e :
  Forall2 (entry_yields env t) served expected ->
  entry_fields bad = Raise e ->
  forall acc d out log, exists tail,
    collect_files (served ++ bad :: rest) t acc env (mkState d out log)
    = (Raise e, mkState d out (log ++ tail)) /\
    Forall2 (entry_exchange t) served tail.
Proof.
  intros Hserved Hbad.
  induction Hserved as [| entry tuple entries expected Hentry _ IH];
    intros acc d out log.
  - exists []. rewrite List.app_nil_r. split; [| constructor].
    apply collect_files_incomplete. exact Hbad.
  - destruct Hentry as (url & body & content & Hf & Hp & Hu & Hnet & Hc & Hdec).
    destruct tuple as [[filename patch] text]. cbn [fst snd] in *.
    set (x := mkExchange InGetFileContent (content_request url t)
                (Some (mkResponse 200 (Some body)))).
    destruct (IH (acc ++ [(filename, patch, text)]) d out (log ++ [x]))
      as (tail & Hrun & Hall).
    exists (x :: tail). split.
    + cbn [app collect_files]. unfold bind, lift. rewrite Hf, Hp, Hu.
      rewrite (Retrieval.get_file_content_ok env t url body content text
                 d out log (Hnet log) Hc Hdec).
      fold x. rewrite Hrun, <- !List.app_assoc. reflexivity.
    + constructor; [| exact Hall].
      repeat split; try assumption. exists (mkResponse 200 (Some body)).
      split; reflexivity.
Qed.

(** The retrieval when the list is answered with status 200 and a JSON
    array: the loop runs from the log extended with that exchange. *)
Lemma get_pr_file_list_listed n o r t env d out log entries :
  net env log (files_request n o r t)
  = Some (mkResponse 200 (Some (JList entries))) ->
  get_pr_file_list n o r t env (mkState d out log)
  = collect_files entries t [] env
      (mkState d out
         (log ++ [mkExchange InGetPrFileList (files_request n o r t)
                    (Some (mkResponse 200 (Some (JList entries))))])).
Proof.
  intros Hnet. unfold get_pr_file_list, bind, requests_get, lift.
  cbn [DEBUG stdout http_log]. fold (files_request n o r t).
  rewrite Hnet. reflexivity.
Qed.

Lemma getitem_dict obj key v :
  getitem obj key = Return v -> exists items, obj = JDict items.
Proof. destruct obj; try discriminate. eauto. Qed.

Lemma py_iter_dicts body entries :
  py_iter body = Return entries ->
  entries <> [] ->
  Forall (fun entry => exists items, entry = JDict items) entries ->
  body = JList entries.
Proof.
  destruct body as [| | | | s | l | items]; try discriminate; cbn [py_iter].
  - intros [= <-] Hne Hall. destruct s as [| ch s]; [contradiction |].
    apply Forall_inv in Hall as [items Hitems]. discriminate.
  - intros [= <-] _ _. reflexivity.
  - intros [= <-] Hne Hall. destruct items as [| kv items]; [contradiction |].
    apply Forall_inv in Hall as [items' Hitems]. discriminate.
Qed.

End RetrievalFacts.

(** X10.  When the list of files is answered with status 200 and every
    entry is served, the retrieval makes exactly one request for the list
    and then one request per entry, in the order of the list, each to the
    contents URL of its entry and with the access token. *)
Theorem retrieval_requests_list_then_each_content
    n o r t env st entries expected :
  (forall log, net env log (files_request n o r t)
               = Some (mkResponse 200 (Some (JList entries)))) ->
  Forall2 (entry_yields env t) entries expected ->
  exists tail,
    http_log (snd (get_pr_file_list n o r t env st))
    = http_log st
      ++ mkExchange InGetPrFileList (files_request n o r t)
           (Some (mkResponse 200 (Some (JList entries)))) :: tail /\
    Forall2 (entry_exchange t) entries tail /\
    List.length tail = List.length entries.
Proof.
  intros Hlist Hentries. destruct st as [d out log].
  rewrite (RetrievalFacts.get_pr_file_list_listed n o r t env d out log entries
             (Hlist log)).
  destruct (RetrievalFacts.collect_files_exchanges env t entries expected
              Hentries [] d out
              (log ++ [mkExchange InGetPrFileList (files_request n o r t)
                         (Some (mkResponse 200 (Some (JList entries))))]))
    as (tail & Hrun & Hall).
  exists tail. rewrite Hrun. cbn [snd http_log].
  rewrite <- List.app_assoc. repeat split; [exact Hall |].
  symmetry. eapply Forall2_length. exact Hall.
Qed.

Lemma retrieval_requests_list_then_each_content_witness :
  http_log (snd (get_pr_file_list (lit "7") (lit "octo") (lit "demo")
                   (lit "secret") Mock.healthy initial_state))
  = [mkExchange InGetPrFileList
       (files_request (lit "7") (lit "octo") (lit "demo") (lit "secret"))
       (Mock.json_response 200 (JList [Mock.a_py]));
     mkExchange InGetFileContent
       (content_request (JStr Mock.a_py_url) (lit "secret"))
       (Mock.json_response 200 (Mock.content_of (lit "cHJpbnQoMSk=")))] /\
  exists tail,
    Forall2 (entry_exchange (lit "secret")) [Mock.a_py] tail /\
    List.length tail = 1%nat.
Proof.
  split; [reflexivity |].
  destruct (retrieval_requests_list_then_each_content
              (lit "7") (lit "octo") (lit "demo") (lit "secret")
              Mock.healthy initial_state [Mock.a_py]
              [(JStr (lit "a.py"), JStr (lit "@@ ..."), lit "print(1)")])
    as (tail & _ & Hall & Hlen).
  - intros log. reflexivity.
  - constructor; [| constructor].
    exists (JStr Mock.a_py_url), (Mock.content_of (lit "cHJpbnQoMSk=")),
      (JStr (lit "cHJpbnQoMSk=")).
    repeat split.
  - exists tail. split; assumption.
Defined.

(** X11.  When an entry of the list lacks one of the fields [filename],
    [patch] and [contents_url] (the API lists a binary file without
    [patch]), the retrieval ends with the error of the missing field.
    The entries before it have been fetched, one request each; neither
    the entry itself nor any entry after it is requested, and no list is
    returned. *)
Theorem retrieval_fails_at_first_incomplete_entry
    n o r t env st served expected bad rest e :
  (forall log, net env log (files_request n o r t)
               = Some (mkResponse 200
                         (Some (JList (served ++ bad :: rest))))) ->
  Forall2 (entry_yields env t) served expected ->
  entry_fields bad = Raise e ->
  fst (get_pr_file_list n o r t env st) = Raise e /\
  exists tail,
    http_log (snd (get_pr_file_list n o r t env st))
    = http_log st
      ++ mkExchange InGetPrFileList (files_request n o r t)
           (Some (mkResponse 200 (Some (JList (served ++ bad :: rest)))))
         :: tail /\
    Forall2 (entry_exchange t) served tail.
Proof.
  intros Hlist Hserved Hbad. destruct st as [d out log].
  rewrite (RetrievalFacts.get_pr_file_list_listed n o r t env d out log _
             (Hlist log)).
  destruct (RetrievalFacts.collect_files_stops env t served expected bad rest e
              Hserved Hbad [] d out
              (log ++ [mkExchange InGetPrFileList (files_request n o r t)
                         (Some (mkResponse 200
                                  (Some (JList (served ++ bad :: rest)))))]))
    as (tail & Hrun & Hall).
  rewrite Hrun. split; [reflexivity |].
  exists tail. cbn [snd http_log]. rewrite <- List.app_assoc.
  split; [reflexivity | exact Hall].
Qed.

Lemma retrieval_fails_at_first_incomplete_entry_witness :
  fst (get_pr_file_list (lit "7") (lit "octo") (lit "demo") (lit "secret")
         MockMore.with_binary initial_state)
  = Raise (KeyError (lit "patch")).
Proof.
  apply (retrieval_fails_at_first_incomplete_entry
           (lit "7") (lit "octo") (lit "demo") (lit "secret")
           MockMore.with_binary initial_state [Mock.a_py]
           [(JStr (lit "a.py"), JStr (lit "@@ ..."), lit "print(1)")]
           MockMore.logo_png [Mock.b_py]).
  - intros log. reflexivity.
  - constructor; [| constructor].
    exists (JStr Mock.a_py_url),
      (Mock.content_of (lit "cHJp" ++ NL ++ lit "bnQo" ++ NL
                        ++ lit "MSk=" ++ NL)),
      (JStr (lit "cHJp" ++ NL ++ lit "bnQo" ++ NL ++ lit "MSk=" ++ NL)).
    repeat split.
  - reflexivity.
Defined.

(** X12.  A list that is returned and is not empty comes from a JSON
    array of objects with as many elements: a body of any other kind,
    answered with status 200, never yields a tuple. *)
Theorem nonempty_result_comes_from_an_array n o r t env st fl :
  fst (get_pr_file_list n o r t env st) = Return fl ->
  fl <> [] ->
  exists resp entries,
    net env (http_log st) (files_request n o r t) = Some resp /\
    status_code resp = 200 /\
    resp_json resp = Some (JList entries) /\
    List.length entries = List.length fl /\
    Forall (fun entry => exists items, entry = JDict items) entries.
Proof.
  intros Hfl Hne.
  destruct (get_pr_file_list n o r t env st) as [res st'] eqn:Hrun.
  cbn [fst] in Hfl. subst res.
  destruct (Retrieval.get_pr_file_list_sound _ _ _ _ _ _ _ _ Hrun)
    as (resp & body & entries & Hnet & Hst & Hbody & Hiter & Hall).
  assert (Hdicts : Forall (fun entry => exists items, entry = JDict items)
                     entries).
  { clear - Hall. induction Hall as [| entry tuple entries fl Hentry _ IH];
      constructor; [| exact IH].
    destruct Hentry as (url & log & resp & body & content & Hf & _).
    eapply RetrievalFacts.getitem_dict. exact Hf. }
  assert (Hlen : List.length entries = List.length fl).
  { eapply Forall2_length. exact Hall. }
  assert (Hentries : entries <> []).
  { intros ->. destruct fl; [contradiction | discriminate]. }
  rewrite (RetrievalFacts.py_iter_dicts body entries Hiter Hentries Hdicts)
    in Hbody.
  exists resp, entries. repeat split; assumption.
Qed.

Lemma nonempty_result_comes_from_an_array_witness :
  exists resp entries,
    net Mock.healthy []
      (files_request (lit "7") (lit "octo") (lit "demo") (lit "secret"))
    = Some resp /\
    status_code resp = 200 /\
    resp_json resp = Some (JList entries) /\
    List.length entries = 1%nat /\
    Forall (fun entry => exists items, entry = JDict items) entries.
Proof.
  apply (nonempty_result_comes_from_an_array
           (lit "7") (lit "octo") (lit "demo") (lit "secret")
           Mock.healthy initial_state
           [(JStr (lit "a.py"), JStr (lit "@@ ..."), lit "print(1)")]).
  - reflexivity.
  - discriminate.
Defined.

(** X13.  The retrieval neither prints nor touches [DEBUG], and what it
    returns and requests does not depend on them: run from two states
    with the same log of exchanges, it ends the same way with the same
    log, and leaves [stdout] and [DEBUG] as it found them. *)
Theorem retrieval_only_talks_to_the_network
    n o r t env d out d' out' log :
  let run := get_pr_file_list n o r t env (mkState d out log) in
  let run' := get_pr_file_list n o r t env (mkState d' out' log) in
  fst run = fst run' /\
  http_log (snd run) = http_log (snd run') /\
  stdout (snd run) = out /\
  DEBUG (snd run) = d.
Proof.
  destruct (Run.get_pr_file_list_fetches n o r t env log)
    as (res & new & _ & Hrun).
  cbv zeta. rewrite !Hrun. repeat split.
Qed.

(** X14.  [string_to_base64] fails exactly on the strings that hold a
    surrogate code point, and then with [UnicodeEncodeError]; on every
    other string it returns bytes. *)
Theorem string_to_base64_fails_exactly_on_surrogates s :
  (no_surrogates s = false
   <-> string_to_base64 s = Raise UnicodeEncodeError) /\
  (no_surrogates s = true <-> exists b, string_to_base64 s = Return b).
Proof.
  unfold string_to_base64.
  destruct (no_surrogates s) eqn:Hs.
  - destruct (Utf8.encode_defined s Hs) as [raw ->]. cbn [of_option rbind].
    split; split; try discriminate; eauto.
  - rewrite (Base64Facts.encode_surrogate s Hs). cbn [of_option rbind].
    split; split; try reflexivity; try discriminate.
    intros [b Hb]. discriminate.
Qed.

(** X15.  The bytes [string_to_base64] returns for a string are the
    Base64 text of its UTF-8 encoding: four characters for every three
    octets, rounded up, each of them a digit of the alphabet or the
    padding character, all ASCII. *)
Theorem string_to_base64_output_shape s b :
  wf_str s = true ->
  string_to_base64 s = Return b ->
  exists raw,
    Codec.utf8_encode s = Some raw /\
    List.length b = (4 * ((List.length raw + 2) / 3))%nat /\
    forallb b64_significant b = true /\
    is_ascii b = true.
Proof.
  intros Hwf. unfold string_to_base64.
  destruct (Codec.utf8_encode s) as [raw |] eqn:Hraw; cbn [of_option rbind];
    [| discriminate].
  intros [= <-]. exists raw. split; [reflexivity |].
  split; [apply Base64Facts.b64encode_length |].
  apply Base64Facts.plain_split, Base64Facts.b64encode_plain.
  exact (Utf8.encode_bytes s raw Hwf Hraw).
Qed.

Lemma string_to_base64_output_shape_witness :
  exists raw,
    Codec.utf8_encode (lit "print(1)") = Some raw /\
    List.length (lit "cHJpbnQoMSk=") = (4 * ((List.length raw + 2) / 3))%nat /\
    forallb b64_significant (lit "cHJpbnQoMSk=") = true /\
    is_ascii (lit "cHJpbnQoMSk=") = true.
Proof.
  apply (string_to_base64_output_shape (lit "print(1)") (lit "cHJpbnQoMSk="));
    reflexivity.
Defined.

(** X16.  What [string_to_base64] makes of a string is fetched back as
    that string: when a contents URL is answered with status 200 and a
    document whose [content] field is the text [string_to_base64(s)],
    [get_file_content] returns [s]. *)
Theorem get_file_content_returns_encoded_string env t url st body s b :
  wf_str s = true ->
  string_to_base64 s = Return b ->
  net env (http_log st) (content_request url t)
  = Some (mkResponse 200 (Some body)) ->
  getitem body (lit "content") = Return (JStr b) ->
  fst (get_file_content url t env st) = Return s.
Proof.
  intros Hwf Hb Hnet Hget. destruct st as [d out log].
  cbn [http_log] in Hnet.
  rewrite (Retrieval.get_file_content_ok env t url body (JStr b) s d out log
             Hnet Hget); [reflexivity |].
  unfold string_to_base64 in Hb.
  destruct (Codec.utf8_encode s) as [raw |] eqn:Hraw; cbn [of_option rbind] in Hb;
    [| discriminate].
  injection Hb as <-.
  pose proof (Utf8.encode_bytes s raw Hwf Hraw) as Hbytes.
  destruct (Base64Facts.plain_split _ (Base64Facts.b64encode_plain raw Hbytes))
    as [_ Hascii].
  unfold base64_to_string, Codec.ascii_encode. unfold is_ascii in Hascii.
  rewrite Hascii. cbn [of_option rbind].
  rewrite (Base64.base64_round_trip raw Hbytes). cbn [of_option rbind].
  rewrite (Utf8.utf8_round_trip s raw Hwf Hraw). reflexivity.
Qed.

Lemma get_file_content_returns_encoded_string_witness :
  fst (get_file_content (JStr Mock.a_py_url) (lit "secret") Mock.healthy
         initial_state)
  = Return (lit "print(1)").
Proof.
  apply (get_file_content_returns_encoded_string Mock.healthy (lit "secret")
           (JStr Mock.a_py_url) initial_state
           (Mock.content_of (lit "cHJpbnQoMSk="))
           (lit "print(1)") (lit "cHJpbnQoMSk="));
    reflexivity.
Defined.

(** X17.  [base64_to_string] skips what is neither a digit of the
    alphabet nor the padding character: an ASCII text decodes as the text
    left when these characters, the line breaks of a served content among
    them, are removed. *)
Theorem base64_to_string_skips_other_characters s :
  is_ascii s = true ->
  base64_to_string (OfJson (JStr s))
  = base64_to_string (OfJson (JStr (filter b64_significant s))).
Proof.
  intros Hascii. unfold base64_to_string, Codec.ascii_encode.
  assert (Hfiltered : forallb (fun c => c <? 0x80) (filter b64_significant s)
                      = true).
  { unfold is_ascii in Hascii. rewrite forallb_forall in *.
    intros c [Hc _]%filter_In. exact (Hascii c Hc). }
  unfold is_ascii in Hascii. rewrite Hascii, Hfiltered.
  cbn [of_option rbind]. unfold Codec.b64decode.
  rewrite Base64Facts.a2b_skips. reflexivity.
Qed.

Lemma base64_to_string_skips_other_characters_witness :
  base64_to_string
    (OfJson (JStr (lit "cHJp" ++ NL ++ lit "bnQo" ++ NL ++ lit "MSk=" ++ NL)))
  = Return (lit "print(1)").
Proof.
  rewrite (base64_to_string_skips_other_characters
             (lit "cHJp" ++ NL ++ lit "bnQo" ++ NL ++ lit "MSk=" ++ NL));
    reflexivity.
Defined.

(** X18.  Whatever [base64_to_string] returns, from bytes or from a JSON
    value, is a string of Unicode scalar values: it holds no surrogate,
    so [string_to_base64] accepts it, and encoding it and decoding it
    again gives it back. *)
Theorem base64_to_string_returns_scalar_values x s :
  base64_to_string x = Return s ->
  wf_str s = true /\
  no_surrogates s = true /\
  (exists b, string_to_base64 s = Return b) /\
  round_trip s = Return s.
Proof.
  intros H. destruct (Base64Facts.base64_to_string_sound x s H)
    as (Hwf & Hns & Hround).
  repeat split; try assumption.
  unfold string_to_base64. destruct (Utf8.encode_defined s Hns) as [raw ->].
  cbn [of_option rbind]. eauto.
Qed.

Lemma base64_to_string_returns_scalar_values_witness :
  round_trip (lit "print(1)") = Return (lit "print(1)").
Proof.
  apply (base64_to_string_returns_scalar_values
           (OfJson (JStr (lit "cHJpbnQoMSk="))) (lit "print(1)")).
  reflexivity.
Defined.

(** X19.  Every content in a list that the retrieval returns is a string
    of Unicode scalar values, which [string_to_base64] and
    [base64_to_string] take back to itself. *)
Theorem retrieved_contents_are_scalar_strings n o r t env st fl tuple :
  fst (get_pr_file_list n o r t env st) = Return fl ->
  In tuple fl ->
  wf_str (snd tuple) = true /\
  no_surrogates (snd tuple) = true /\
  round_trip (snd tuple) = Return (snd tuple).
Proof.
  intros Hfl Hin.
  destruct (get_pr_file_list n o r t env st) as [res st'] eqn:Hrun.
  cbn [fst] in Hfl. subst res.
  destruct (Retrieval.get_pr_file_list_sound _ _ _ _ _ _ _ _ Hrun)
    as (resp & body & entries & _ & _ & _ & _ & Hall).
  clear Hrun. induction Hall as [| entry x entries fl Hentry _ IH];
    [contradiction |].
  destruct Hin as [<- | Hin]; [| exact (IH Hin)].
  destruct Hentry as (url & log & resp' & body' & content & _ & _ & _ & _ & _
                      & _ & _ & Hdec).
  exact (Base64Facts.base64_to_string_sound _ _ Hdec).
Qed.

Lemma retrieved_contents_are_scalar_strings_witness :
  round_trip (lit "print(1)") = Return (lit "print(1)") /\
  no_surrogates (lit "print(1)") = true.
Proof.
  destruct (retrieved_contents_are_scalar_strings
              (lit "7") (lit "octo") (lit "demo") (lit "secret")
              Mock.healthy initial_state
              [(JStr (lit "a.py"), JStr (lit "@@ ..."), lit "print(1)")]
              (JStr (lit "a.py"), JStr (lit "@@ ..."), lit "print(1)"))
    as (_ & Hns & Hround).
  - reflexivity.
  - left. reflexivity.
  - split; assumption.
Defined.

(** X20.  When the list of files is answered with status 200 and a JSON
    document that is not an array, the retrieval makes no further request
    and ends with [TypeError], unless the document is the empty string or
    the empty object, which it takes for an empty list. *)
Theorem non_array_body_is_a_type_error_unless_empty
    n o r t env st body :
  net env (http_log st) (files_request n o r t)
  = Some (mkResponse 200 (Some body)) ->
  (forall entries, body <> JList entries) ->
  fst (get_pr_file_list n o r t env st)
  = (if empty_container body then Return [] else Raise TypeError) /\
  http_log (snd (get_pr_file_list n o r t env st))
  = http_log st
    ++ [mkExchange InGetPrFileList (files_request n o r t)
          (Some (mkResponse 200 (Some body)))].
Proof.
  intros Hnet Hbody.
  unfold get_pr_file_list, bind, requests_get, lift.
  fold (files_request n o r t). rewrite Hnet.
  cbn [status_code Z.eqb Pos.eqb negb]. unfold response_json.
  cbn [resp_json of_option].
  destruct body as [| flag | k | bits | s | entries | items];
    cbn [py_iter empty_container]; try (split; reflexivity).
  - destruct s as [| ch s]; split; reflexivity.
  - destruct (Hbody entries eq_refl).
  - destruct items as [| [key v] items]; split; reflexivity.
Qed.

Lemma non_array_body_is_a_type_error_unless_empty_witness :
  fst (get_pr_file_list (lit "7") (lit "octo") (lit "demo") (lit "secret")
         MockMore.null_body initial_state)
  = Raise TypeError.
Proof.
  apply (non_array_body_is_a_type_error_unless_empty
           (lit "7") (lit "octo") (lit "demo") (lit "secret")
           MockMore.null_body initial_state
           (JDict [(lit "message", JStr (lit "Moved"))])).
  - reflexivity.
  - discriminate.
Defined.




